(** * nengo.builder.ensemble: lowering an Ensemble into signals and operators

    A shallow embedding of [src/nengo/builder/ensemble.py] and the
    properties of its build pipeline.

    - numpy's float64 scalars are an interface ([Scalar]) with two
      instances: IEEE binary64 ([float], the arithmetic numpy performs) and
      the real numbers (exact arithmetic, used for statements about norms).
    - 1-d arrays are lists, 2-d arrays lists of rows; the literal evaluation
      points keep numpy's [shape]/data form because the code inspects
      [ndim] and [shape[0]].
    - the build context [model] is mutated in place by the source; here it
      is a state threaded through a state-and-exception monad in which a
      raised exception keeps the mutations made so far. *)

From Stdlib Require Import PrimFloat.
From Stdlib Require Import Reals Lra.
From stdpp Require Import gmap strings list.

Open Scope string_scope.

(** ** Scalars *)

Class Scalar (F : Type) : Type := {
  f0 : F;
  f1 : F;
  fadd : F -> F -> F;
  fmul : F -> F -> F;
  fdiv : F -> F -> F;
  fsqrt : F -> F
}.

(** What the pass-through path needs of the arithmetic: the facts used
    when a row of the identity matrix is divided by its own norm. *)
Class UnitLaws (F : Type) `{Scalar F} : Prop := {
  law_mul_0_0 : fmul f0 f0 = f0;
  law_mul_1_1 : fmul f1 f1 = f1;
  law_add_0_0 : fadd f0 f0 = f0;
  law_add_0_1 : fadd f0 f1 = f1;
  law_add_1_0 : fadd f1 f0 = f1;
  law_sqrt_1 : fsqrt f1 = f1;
  law_div_0_1 : fdiv f0 f1 = f0;
  law_div_1_1 : fdiv f1 f1 = f1
}.

#[global] Instance float_Scalar : Scalar float := {|
  f0 := 0%float;
  f1 := 1%float;
  fadd := PrimFloat.add;
  fmul := PrimFloat.mul;
  fdiv := PrimFloat.div;
  fsqrt := PrimFloat.sqrt
|}.

#[global] Instance R_Scalar : Scalar R := {|
  f0 := 0%R;
  f1 := 1%R;
  fadd := Rplus;
  fmul := Rmult;
  fdiv := Rdiv;
  fsqrt := R_sqrt.sqrt
|}.

#[global] Instance float_UnitLaws : UnitLaws float.
Proof. split; reflexivity. Qed.

#[global] Instance R_UnitLaws : UnitLaws R.
Proof.
  split; simpl; try lra.
  apply sqrt_1.
Qed.

(** ** Python values shared by every instance *)

(** The exceptions the build can raise. *)
Inductive exn : Type :=
| AssertionError
| NotImplementedError (msg : string)
| KeyError
| IndexError
| ValueError
| BuildError (msg : string).

Inductive outcome (A : Type) : Type :=
| Return (a : A)
| Raise (e : exn).
Arguments Return {A} a.
Arguments Raise {A} e.

(** Keys of [model.sig], [model.params] and [model.seeds]: the ensemble
    object [ens] and its neuron population [ens.neurons]. *)
Inductive Key : Type :=
| EnsKey (id : nat)
| NeuronsKey (id : nat).

#[global] Instance Key_eq_dec : EqDecision Key.
Proof. solve_decision. Defined.

#[global] Instance Key_countable : Countable Key.
Proof.
  refine (inj_countable'
            (fun k => match k with EnsKey i => inl i | NeuronsKey i => inr i end)
            (fun s => match s with inl i => EnsKey i | inr i => NeuronsKey i end) _).
  intros []; reflexivity.
Defined.

(** A reference to a [Signal] object: its position in the store of
    allocated signals. Two references denote the same buffer exactly when
    they are equal. *)
Definition sigref : Type := nat.

(** Modelled from the spec: the operators of [nengo.builder.operator]
    used here, [Reset] (zero a signal each step), [Copy] and [DotInc]
    (matrix-vector product added into a target); [SimOp] stands for
    whatever a neuron-model or noise sub-builder emits. *)
Inductive Operator : Type :=
| Reset (dst : sigref)
| Copy (src dst : sigref)
| DotInc (A X Y : sigref) (tag : string)
| SimOp (label : string) (args : list sigref).

(** ** Arrays *)

(** 1-d arrays are lists and 2-d arrays lists of rows. *)
Abbreviation vector F := (list F) (only parsing).
Abbreviation matrix F := (list (list F)) (only parsing).

Section Builder.

Context {F : Type} {SF : Scalar F}.
Context {RandomState : Type}.

(** [np.random.RandomState(seed)] *)
Variable mkRandomState : Z -> RandomState.

(** [nengo.utils.builder.default_n_eval_points(n_neurons, dimensions)] *)
Variable default_n_eval_points : nat -> nat -> nat.

(** An array as numpy stores it: a shape and the flat data. *)
Record ndarray : Type := {
  shape : list nat;
  data : list F
}.

Definition ndim (a : ndarray) : nat := length (shape a).

(** The result type of [dist.sample(n, d=d, rng=rng)]: shape [(n,)] when
    [d] is [None], shape [(n, d)] otherwise. *)
Definition array_of (d : option nat) : Type :=
  match d with
  | None => vector F
  | Some _ => matrix F
  end.

(** Modelled from the spec: the distribution capability
    ([nengo.dists.Distribution]), [sample(n, d, rng) -> array]; drawing
    advances the random state. *)
Record Distribution : Type := {
  dist_sample : nat -> forall d : option nat, RandomState -> array_of d * RandomState
}.

(** A parameter that is either a [Distribution] or a literal array
    ([isinstance(x, Distribution)]). *)
Inductive DistOr (A : Type) : Type :=
| Dist (d : Distribution)
| Lit (a : A).
Arguments Dist {A} d.
Arguments Lit {A} a.

(** The 2-d view of a sampled matrix as an [ndarray]. *)
Definition of_matrix (d : nat) (m : matrix F) : ndarray :=
  {| shape := [length m; d]; data := concat m |}.

Definition zeros (n : nat) : vector F := repeat f0 n.

(** [np.identity(n)]: ones on the diagonal, zeros elsewhere. *)
Definition diagonal (i j : nat) : F := if Nat.eqb i j then f1 else f0.

Definition identity (n : nat) : matrix F :=
  map (fun i => map (diagonal i) (seq 0 n)) (seq 0 n).

(** Modelled from the spec: [nengo.utils.numpy.norm(x, axis=1, keepdims=True)],
    the Euclidean length of each row, [sqrt(sum(x**2))]. *)
Definition sum_squares (row : vector F) : F :=
  fold_left fadd (map (fun x => fmul x x) row) f0.

Definition norm (row : vector F) : F := fsqrt (sum_squares row).

(** [encoders /= npext.norm(encoders, axis=1, keepdims=True)] *)
Definition normalize_rows (m : matrix F) : matrix F :=
  map (fun row => map (fun x => fdiv x (norm row)) row) m.

(** [a * c[:, np.newaxis]] for a 2-d [a] and a 1-d [c], with numpy's
    broadcasting of the row axis: equal lengths pair up, a length of one
    is stretched, anything else is a [ValueError]. *)
Definition mul_column (a : matrix F) (c : vector F) : outcome (matrix F) :=
  if decide (length a = length c) then
    Return (zip_with (fun row s => map (fun x => fmul x s) row) a c)
  else
    match c, a with
    | [s], _ => Return (map (fun row => map (fun x => fmul x s) row) a)
    | _, [row] => Return (map (fun s => map (fun x => fmul x s) row) c)
    | _, _ => Raise ValueError
    end.

(** ** Signals and the build context *)

(** Modelled from the spec: a [Signal] ([nengo.builder.signal]), a named
    buffer with its initial value, read-only or not. *)
Inductive value : Type :=
| Vec (v : vector F)
| Mat (m : matrix F).

Record Signal : Type := {
  initial_value : value;
  name : string;
  readonly : bool
}.

Record BuiltEnsemble : Type := {
  built_eval_points : ndarray;
  built_encoders : matrix F;
  built_intercepts : option (vector F);
  built_max_rates : option (vector F);
  built_scaled_encoders : matrix F;
  built_gain : vector F;
  built_bias : vector F
}.

(** Modelled from the spec: the build context ([nengo.builder.Model]):
    a seed per entity, a named signal under an entity and a role, the
    registered operators and a result record per entity. [signals] is the
    store of the [Signal] objects allocated so far and [warned] the
    messages passed to [warnings.warn]. *)
Record Model : Type := {
  seeds : gmap Key Z;
  sig : gmap (Key * string) sigref;
  operators : list Operator;
  params : gmap Key BuiltEnsemble;
  signals : list Signal;
  warned : list string
}.

(** ** The build monad: state, and exceptions that keep the state *)

Definition M (A : Type) : Type := Model -> Model * outcome A.

Definition ret {A} (a : A) : M A := fun m => (m, Return a).

Definition bind {A B} (c : M A) (k : A -> M B) : M B :=
  fun m =>
    match c m with
    | (m1, Return a) => k a m1
    | (m1, Raise e) => (m1, Raise e)
    end.

Notation "'let*' x ':=' c 'in' k" := (bind c (fun x => k))
  (at level 10, x name, c at level 100, k at level 200, only parsing).

Definition lift {A} (o : outcome A) : M A := fun m => (m, o).

(** [model.seeds[k]] *)
Definition get_seed (k : Key) : M Z :=
  fun m => match seeds m !! k with
           | Some s => (m, Return s)
           | None => (m, Raise KeyError)
           end.

(** [Signal(value, name=..., readonly=...)]: a fresh object. *)
Definition new_Signal (v : value) (nm : string) (ro : bool) : M sigref :=
  fun m =>
    ({| seeds := seeds m; sig := sig m; operators := operators m;
        params := params m;
        signals := signals m ++ [{| initial_value := v; name := nm; readonly := ro |}];
        warned := warned m |},
     Return (length (signals m))).

(** [model.sig[k][role]] *)
Definition get_sig (k : Key) (role : string) : M sigref :=
  fun m => match sig m !! (k, role) with
           | Some r => (m, Return r)
           | None => (m, Raise KeyError)
           end.

(** [model.sig[k][role] = r] *)
Definition set_sig (k : Key) (role : string) (r : sigref) : M unit :=
  fun m =>
    ({| seeds := seeds m; sig := <[(k, role) := r]> (sig m);
        operators := operators m; params := params m;
        signals := signals m; warned := warned m |},
     Return tt).

(** [model.add_op(op)] *)
Definition add_op (op : Operator) : M unit :=
  fun m =>
    ({| seeds := seeds m; sig := sig m; operators := operators m ++ [op];
        params := params m; signals := signals m; warned := warned m |},
     Return tt).

(** [model.params[k] = b] *)
Definition set_params (k : Key) (b : BuiltEnsemble) : M unit :=
  fun m =>
    ({| seeds := seeds m; sig := sig m; operators := operators m;
        params := <[k := b]> (params m);
        signals := signals m; warned := warned m |},
     Return tt).

(** [warnings.warn(msg)] for each message of [ws], in order. *)
Definition warn_all (ws : list string) : M unit :=
  fun m =>
    ({| seeds := seeds m; sig := sig m; operators := operators m;
        params := params m; signals := signals m;
        warned := warned m ++ ws |},
     Return tt).

(** ** The ensemble description *)

(** Modelled from the spec: the neuron-model capability. [is_Direct] is
    [isinstance(neuron_type, Direct)]; [build_neurons k] is
    [model.build(neuron_type, neurons)] with [k] the key of the neurons. *)
Record NeuronType : Type := {
  is_Direct : bool;
  gain_bias : vector F -> vector F -> vector F * vector F;
  build_neurons : Key -> M unit
}.

(** Modelled from the spec: the noise-process capability,
    [model.build(noise, sig_out=s, inc=b)]. *)
Record Process : Type := {
  build_process : sigref -> bool -> M unit
}.

(** Modelled from the spec: the ensemble description ([nengo.Ensemble]),
    with the attributes the build reads. [ens_id] is the object's
    identity and [ens_str] the text of [str(ens)]. *)
Record Ensemble : Type := {
  ens_id : nat;
  ens_str : string;
  dimensions : nat;
  n_neurons : nat;
  radius : F;
  neuron_type : NeuronType;
  eval_points : DistOr ndarray;
  n_eval_points : option nat;
  encoders : DistOr (matrix F);
  gain : option (DistOr (vector F));
  bias : option (DistOr (vector F));
  max_rates : DistOr (vector F);
  intercepts : DistOr (vector F);
  noise : option Process
}.

Definition ens_key (ens : Ensemble) : Key := EnsKey (ens_id ens).
Definition neurons_key (ens : Ensemble) : Key := NeuronsKey (ens_id ens).

(** ** The functions of ensemble.py *)

(** [sample(dist, n, d=None, rng=None)] *)
Definition sample (d : option nat) (dist : DistOr (array_of d)) (n : nat)
    (rng : RandomState) : array_of d * RandomState :=
  match dist with
  | Dist di => dist_sample di n d rng
  | Lit a => (a, rng)
  end.

Definition mismatch_warning : string :=
  "Number of eval_points doesn't match n_eval_points. Ignoring n_eval_points.".

(** [eval_points *= ens.radius] *)
Definition scale_by_radius (ens : Ensemble) (a : ndarray) : ndarray :=
  {| shape := shape a; data := map (fun x => fmul x (radius ens)) (data a) |}.

(** [gen_eval_points(ens, eval_points, rng, scale_eval_points=True)]: the
    warnings emitted, then the exception or the points and the random
    state left behind. *)
Definition gen_eval_points (ens : Ensemble) (eval_points : DistOr ndarray)
    (rng : RandomState) (scale_eval_points : bool)
    : list string * outcome (ndarray * RandomState) :=
  let scaled (a : ndarray) :=
    if scale_eval_points then scale_by_radius ens a else a in
  match eval_points with
  | Dist di =>
      let n_points :=
        match n_eval_points ens with
        | Some n => n
        | None => default_n_eval_points (n_neurons ens) (dimensions ens)
        end in
      let '(pts, rng') := dist_sample di n_points (Some (dimensions ens)) rng in
      ([], Return (scaled (of_matrix (dimensions ens) pts), rng'))
  | Lit a =>
      match n_eval_points ens, shape a with
      | Some _, [] => ([], Raise IndexError)
      | _, _ =>
          let ws :=
            match n_eval_points ens, shape a with
            | Some n, rows :: _ => if decide (rows = n) then [] else [mismatch_warning]
            | _, _ => []
            end in
          if decide (ndim a = 2) then (ws, Return (scaled a, rng))
          else (ws, Raise AssertionError)
      end
  end.

Definition gain_bias_message (ens : Ensemble) : string :=
  "gain or bias set for " +:+ ens_str ens +:+
  ", but not both. Solving for one given the other is not implemented yet.".

(** [get_gain_bias(ens, rng)]: [(gain, bias, max_rates, intercepts)] and
    the random state left behind. *)
Definition get_gain_bias (ens : Ensemble) (rng : RandomState)
    : outcome (vector F * vector F * option (vector F) * option (vector F) * RandomState) :=
  match gain ens, bias ens with
  | Some g, Some b =>
      let '(gain, rng1) := sample None g (n_neurons ens) rng in
      let '(bias, rng2) := sample None b (n_neurons ens) rng1 in
      Return (gain, bias, None, None, rng2)
  | Some _, None | None, Some _ =>
      Raise (NotImplementedError (gain_bias_message ens))
  | None, None =>
      let '(max_rates, rng1) := sample None (max_rates ens) (n_neurons ens) rng in
      let '(intercepts, rng2) := sample None (intercepts ens) (n_neurons ens) rng1 in
      let '(gain, bias) := gain_bias (neuron_type ens) max_rates intercepts in
      Return (gain, bias, Some max_rates, Some intercepts, rng2)
  end.

(** Lines 113-118 of [build_ensemble]: the encoder matrix before it is
    normalised, and the random state left behind. *)
Definition raw_encoders (ens : Ensemble) (rng : RandomState) : matrix F * RandomState :=
  if is_Direct (neuron_type ens) then (identity (dimensions ens), rng)
  else
    match encoders ens with
    | Dist _ => sample (Some (dimensions ens)) (encoders ens) (n_neurons ens) rng
    | Lit a => (a, rng)
    end.

(** Lines 140-143: [encoders * (gain / ens.radius)[:, np.newaxis]]. *)
Definition scale_encoders (ens : Ensemble) (encoders : matrix F) (gain : vector F)
    : outcome (matrix F) :=
  if is_Direct (neuron_type ens) then Return encoders
  else mul_column encoders (map (fun g => fdiv g (radius ens)) gain).

(** [build_ensemble(model, ens)] *)
Definition build_ensemble (ens : Ensemble) : M unit :=
  let* seed := get_seed (ens_key ens) in
  let rng := mkRandomState seed in
  let '(ws, r) := gen_eval_points ens (eval_points ens) rng true in
  let* _ := warn_all ws in
  let* p := lift r in
  let '(eval_points, rng) := p in
  (* Set up signal *)
  let* s := new_Signal (Vec (zeros (dimensions ens))) (ens_str ens +:+ ".signal") false in
  let* _ := set_sig (ens_key ens) "in" s in
  let* s_in := get_sig (ens_key ens) "in" in
  let* _ := add_op (Reset s_in) in
  (* Set up encoders *)
  let '(encoders, rng) := raw_encoders ens rng in
  let encoders := normalize_rows encoders in
  (* Build the neurons *)
  let* p := lift (get_gain_bias ens rng) in
  let '(gain, bias, max_rates, intercepts, _) := p in
  let* _ :=
    if is_Direct (neuron_type ens) then
      let* s := new_Signal (Vec (zeros (dimensions ens)))
                           (ens_str ens +:+ ".neuron_in") false in
      let* _ := set_sig (neurons_key ens) "in" s in
      let* n_in := get_sig (neurons_key ens) "in" in
      let* _ := set_sig (neurons_key ens) "out" n_in in
      let* n_in := get_sig (neurons_key ens) "in" in
      add_op (Reset n_in)
    else
      let* s := new_Signal (Vec (zeros (n_neurons ens)))
                           (ens_str ens +:+ ".neuron_in") false in
      let* _ := set_sig (neurons_key ens) "in" s in
      let* s := new_Signal (Vec (zeros (n_neurons ens)))
                           (ens_str ens +:+ ".neuron_out") false in
      let* _ := set_sig (neurons_key ens) "out" s in
      let* bias_sig := new_Signal (Vec bias) (ens_str ens +:+ ".bias") true in
      let* n_in := get_sig (neurons_key ens) "in" in
      let* _ := add_op (Copy bias_sig n_in) in
      build_neurons (neuron_type ens) (neurons_key ens)
  in
  (* Scale the encoders *)
  let* scaled_encoders := lift (scale_encoders ens encoders gain) in
  let* s := new_Signal (Mat scaled_encoders)
                       (ens_str ens +:+ ".scaled_encoders") true in
  let* _ := set_sig (ens_key ens) "encoders" s in
  (* Inject noise if specified *)
  let* _ :=
    match noise ens with
    | Some p =>
        let* n_in := get_sig (neurons_key ens) "in" in
        build_process p n_in true
    | None => ret tt
    end
  in
  (* Create output signal, using built Neurons *)
  let* a := get_sig (ens_key ens) "encoders" in
  let* x := get_sig (ens_key ens) "in" in
  let* y := get_sig (neurons_key ens) "in" in
  let* _ := add_op (DotInc a x y (ens_str ens +:+ " encoding")) in
  (* Output is neural output *)
  let* n_out := get_sig (neurons_key ens) "out" in
  let* _ := set_sig (ens_key ens) "out" n_out in
  set_params (ens_key ens)
    {| built_eval_points := eval_points;
       built_encoders := encoders;
       built_intercepts := intercepts;
       built_max_rates := max_rates;
       built_scaled_encoders := scaled_encoders;
       built_gain := gain;
       built_bias := bias |}.

(** ** [get_activities] *)

(** The sum of the products of two rows, taken left to right as the
    other sums are. *)
Definition dot_row (u v : vector F) : F :=
  fold_left fadd (zip_with fmul u v) f0.

(** [np.dot(a, b.T / r)] for 2-d [a] and [b]: entry [(p, n)] pairs row [p]
    of [a] with row [n] of [b] divided by [r]; rows of different lengths
    are the [ValueError] of mismatched shapes. *)
Definition dot_transposed (a b : matrix F) (r : F) : outcome (matrix F) :=
  if forallb (fun p => forallb (fun e => Nat.eqb (length p) (length e)) b) a then
    Return (map (fun p => map (fun e => dot_row p (map (fun y => fdiv y r) e)) b) a)
  else Raise ValueError.

(** Modelled from the spec: the tuning-curve capability of the neuron
    model, [neuron_type.rates(x, gain, bias)]. *)
Variable rates : NeuronType -> matrix F -> vector F -> vector F -> matrix F.

(** [get_activities(model, ens, eval_points)] for a 2-d array of points. *)
Definition get_activities (model : Model) (ens : Ensemble)
    (eval_points : matrix F) : outcome (matrix F) :=
  match params model !! ens_key ens with
  | None => Raise KeyError
  | Some built =>
      match dot_transposed eval_points (built_encoders built) (radius ens) with
      | Return x =>
          Return (rates (neuron_type ens) x (built_gain built) (built_bias built))
      | Raise e => Raise e
      end
  end.

End Builder.

Arguments Dist {F RandomState A} d.
Arguments Lit {F RandomState A} a.

(** ** Predicates used by the statements *)

Section Predicates.

Context {F : Type} {SF : Scalar F} {RandomState : Type}.

(** Exactly one of [ens.gain] and [ens.bias] is not [None]. *)
Definition exactly_one_of_gain_bias (ens : Ensemble (F:=F) (RandomState:=RandomState)) : bool :=
  match gain ens, bias ens with
  | Some _, None | None, Some _ => true
  | _, _ => false
  end.

(** The exceptions raised by inspecting the shape of the literal
    evaluation points: the failed [assert eval_points.ndim == 2], and the
    out-of-range [shape[0]] of a 0-d array. *)
Definition shape_error (e : exn) : Prop :=
  e = AssertionError \/ e = IndexError.

(** [m'] keeps everything that [m] holds: bindings of [model.sig], the
    allocated signals, the result records and the warnings emitted. *)
Definition extends (m m' : Model (F:=F)) : Prop :=
  (forall k r, sig m !! k = Some r -> sig m' !! k = Some r) /\
  (forall i s, signals m !! i = Some s -> signals m' !! i = Some s) /\
  (forall k b, params m !! k = Some b -> params m' !! k = Some b) /\
  (forall w, w ∈ warned m -> w ∈ warned m').

(** The sub-builders of the neuron model and of the noise process only
    add to the build context. *)
Definition sub_builders_extend (ens : Ensemble (F:=F) (RandomState:=RandomState)) : Prop :=
  (forall k m, extends m (build_neurons (neuron_type ens) k m).1) /\
  (forall p s inc m, noise ens = Some p -> extends m (build_process p s inc m).1).

(** A computation that leaves the result record stored under [k] alone,
    however it ends. *)
Definition keeps_record {A} (k : Key) (b : BuiltEnsemble (F:=F))
    (c : M (F:=F) A) : Prop :=
  forall m m' r, c m = (m', r) -> params m !! k = Some b -> params m' !! k = Some b.

(** The sub-builders never touch the table of result records. *)
Definition sub_builders_keep_params
    (ens : Ensemble (F:=F) (RandomState:=RandomState)) : Prop :=
  (forall k m, params (build_neurons (neuron_type ens) k m).1 = params m) /\
  (forall p s inc m, noise ens = Some p ->
                     params (build_process p s inc m).1 = params m).

(** A computation that leaves the table of result records as it was,
    however it ends; and one that changes it only by storing one record
    under [k], and only when it returns. *)
Definition params_unchanged {A} (c : M (F:=F) A) : Prop :=
  forall m m' r, c m = (m', r) -> params m' = params m.

Definition stores_on_return {A} (k : Key) (c : M (F:=F) A) : Prop :=
  forall m m' r, c m = (m', r) ->
    match r with
    | Return _ => exists b, params m' = <[k := b]> (params m)
    | Raise _ => params m' = params m
    end.

Definition is_literal {A} (x : DistOr (F:=F) (RandomState:=RandomState) A) : bool :=
  match x with
  | Lit _ => true
  | Dist _ => false
  end.

(** No parameter of the ensemble is a distribution. *)
Definition literal_spec (ens : Ensemble (F:=F) (RandomState:=RandomState)) : bool :=
  is_literal (eval_points ens) && is_literal (encoders ens) &&
  from_option is_literal true (gain ens) &&
  from_option is_literal true (bias ens) &&
  is_literal (max_rates ens) && is_literal (intercepts ens).

End Predicates.

(** ** Concrete ensembles in binary64 arithmetic

    The random state is a counter that every draw advances. *)

Module Examples.

Definition const_dist {F} (x : F) : Distribution (F:=F) (RandomState:=Z) :=
  {| dist_sample := fun n d rng =>
       (match d return array_of d with
        | None => repeat x n
        | Some k => repeat (repeat x k) n
        end, (rng + 1)%Z) |}.

(** A neuron model whose builder emits one operator on its signals. *)
Definition rate_neurons {F} : NeuronType (F:=F) :=
  {| is_Direct := false;
     gain_bias := fun max_rates intercepts => (max_rates, intercepts);
     build_neurons := fun k =>
       bind (get_sig k "in") (fun i =>
       bind (get_sig k "out") (fun o => add_op (SimOp "SimNeurons" [i; o]))) |}.

Definition direct_neurons {F} : NeuronType (F:=F) :=
  {| is_Direct := true;
     gain_bias := fun max_rates intercepts => (max_rates, intercepts);
     build_neurons := fun _ => ret tt |}.

Definition white_noise {F} : Process (F:=F) :=
  {| build_process := fun s _ => add_op (SimOp "SimProcess" [s]) |}.

Definition empty_model : Model (F:=float) :=
  {| seeds := {[ EnsKey 0 := 7%Z ]}; sig := ∅; operators := []; params := ∅;
     signals := []; warned := [] |}.

Definition base_ens : Ensemble (F:=float) (RandomState:=Z) :=
  {| ens_id := 0; ens_str := "<Ensemble A>";
     dimensions := 2; n_neurons := 3; radius := 1.5%float;
     neuron_type := rate_neurons;
     eval_points := Dist (const_dist 0.5%float);
     n_eval_points := Some 4;
     encoders := Lit [[3; 4]; [0; 2]; [1; 0]]%float;
     gain := Some (Lit [1; 2; 3]%float);
     bias := Some (Lit [0; 0; 0]%float);
     max_rates := Dist (const_dist 200%float);
     intercepts := Dist (const_dist 0.25%float);
     noise := Some white_noise |}.

Definition with_gain_bias (g b : option (DistOr (vector float)))
    (ens : Ensemble (F:=float) (RandomState:=Z)) : Ensemble (F:=float) (RandomState:=Z) :=
  {| ens_id := ens_id ens; ens_str := ens_str ens;
     dimensions := dimensions ens; n_neurons := n_neurons ens; radius := radius ens;
     neuron_type := neuron_type ens;
     eval_points := eval_points ens; n_eval_points := n_eval_points ens;
     encoders := encoders ens;
     gain := g; bias := b;
     max_rates := max_rates ens; intercepts := intercepts ens;
     noise := noise ens |}.

Definition with_eval_points (p : DistOr ndarray)
    (ens : Ensemble (F:=float) (RandomState:=Z)) : Ensemble (F:=float) (RandomState:=Z) :=
  {| ens_id := ens_id ens; ens_str := ens_str ens;
     dimensions := dimensions ens; n_neurons := n_neurons ens; radius := radius ens;
     neuron_type := neuron_type ens;
     eval_points := p; n_eval_points := n_eval_points ens;
     encoders := encoders ens;
     gain := gain ens; bias := bias ens;
     max_rates := max_rates ens; intercepts := intercepts ens;
     noise := noise ens |}.

Definition with_neuron_type (nt : NeuronType)
    (ens : Ensemble (F:=float) (RandomState:=Z)) : Ensemble (F:=float) (RandomState:=Z) :=
  {| ens_id := ens_id ens; ens_str := ens_str ens;
     dimensions := dimensions ens; n_neurons := n_neurons ens; radius := radius ens;
     neuron_type := nt;
     eval_points := eval_points ens; n_eval_points := n_eval_points ens;
     encoders := encoders ens;
     gain := gain ens; bias := bias ens;
     max_rates := max_rates ens; intercepts := intercepts ens;
     noise := noise ens |}.

Definition gain_only : Ensemble (F:=float) (RandomState:=Z) :=
  with_gain_bias (Some (Lit [1; 2; 3]%float)) None base_ens.

Definition bias_only : Ensemble (F:=float) (RandomState:=Z) :=
  with_gain_bias None (Some (Lit [0; 0; 0]%float)) base_ens.

Definition direct_ens : Ensemble (F:=float) (RandomState:=Z) :=
  with_neuron_type direct_neurons base_ens.

(** An encoder row that is not a multiple of a unit vector with
    binary64 entries. *)
Definition diagonal_ens : Ensemble (F:=float) (RandomState:=Z) :=
  {| ens_id := 0; ens_str := "<Ensemble A>";
     dimensions := 2; n_neurons := 3; radius := 1.5%float;
     neuron_type := rate_neurons;
     eval_points := Dist (const_dist 0.5%float);
     n_eval_points := Some 4;
     encoders := Lit [[1; 1]; [0; 2]; [1; 0]]%float;
     gain := Some (Lit [1; 2; 3]%float);
     bias := Some (Lit [0; 0; 0]%float);
     max_rates := Dist (const_dist 200%float);
     intercepts := Dist (const_dist 0.25%float);
     noise := None |}.

(** Fifty rows of evaluation points against a hint of forty. *)
Definition fifty_rows : ndarray (F:=float) :=
  {| shape := [50; 2]; data := repeat 0.5%float 100 |}.

Definition fifty_ens : Ensemble (F:=float) (RandomState:=Z) :=
  {| ens_id := 0; ens_str := "<Ensemble A>";
     dimensions := 2; n_neurons := 3; radius := 1.5%float;
     neuron_type := rate_neurons;
     eval_points := Lit fifty_rows;
     n_eval_points := Some 40;
     encoders := Lit [[3; 4]; [0; 2]; [1; 0]]%float;
     gain := Some (Lit [1; 2; 3]%float);
     bias := Some (Lit [0; 0; 0]%float);
     max_rates := Dist (const_dist 200%float);
     intercepts := Dist (const_dist 0.25%float);
     noise := Some white_noise |}.

(** A literal of three dimensions. *)
Definition cube : ndarray (F:=float) :=
  {| shape := [2; 2; 2]; data := repeat 0.5%float 8 |}.

Definition cube_ens : Ensemble (F:=float) (RandomState:=Z) :=
  with_eval_points (Lit cube) base_ens.

(** A model that has already been used: a signal, an operator and a
    warning are there, and the seed of the ensemble is the same. *)
Definition busy_model : Model (F:=float) :=
  {| seeds := {[ EnsKey 0 := 7%Z; EnsKey 1 := 8%Z ]};
     sig := {[ (EnsKey 1, "in") := 0 ]};
     operators := [Reset 0];
     params := ∅;
     signals := [{| initial_value := Vec [0%float]; name := "<Ensemble B>.signal";
                    readonly := false |}];
     warned := ["earlier"] |}.

Definition other_ens : Ensemble (F:=float) (RandomState:=Z) :=
  {| ens_id := 1; ens_str := "<Ensemble B>";
     dimensions := 1; n_neurons := 2; radius := 1%float;
     neuron_type := rate_neurons;
     eval_points := Dist (const_dist 0.5%float);
     n_eval_points := None;
     encoders := Dist (const_dist 1%float);
     gain := None;
     bias := None;
     max_rates := Dist (const_dist 200%float);
     intercepts := Dist (const_dist 0.25%float);
     noise := None |}.

(** The same kind of ensemble over the real numbers. *)
Definition real_model : Model (F:=R) :=
  {| seeds := {[ EnsKey 0 := 7%Z ]}; sig := ∅; operators := []; params := ∅;
     signals := []; warned := [] |}.

Definition real_ens : Ensemble (F:=R) (RandomState:=Z) :=
  {| ens_id := 0; ens_str := "<Ensemble A>";
     dimensions := 2; n_neurons := 2; radius := 2%R;
     neuron_type := rate_neurons;
     eval_points := Dist (const_dist 1%R);
     n_eval_points := Some 1;
     encoders := Lit [[3; 4]; [0; 2]]%R;
     gain := Some (Lit [1; 2]%R);
     bias := Some (Lit [0; 0]%R);
     max_rates := Dist (const_dist 200%R);
     intercepts := Dist (const_dist 0%R);
     noise := None |}.

(** An ensemble that draws nothing, and a context with another seed. *)
Definition literal_ens : Ensemble (F:=float) (RandomState:=Z) :=
  {| ens_id := 0; ens_str := "<Ensemble A>";
     dimensions := 2; n_neurons := 3; radius := 1.5%float;
     neuron_type := rate_neurons;
     eval_points := Lit {| shape := [2; 2]; data := [1; 0; 0; 1]%float |};
     n_eval_points := None;
     encoders := Lit [[3; 4]; [0; 2]; [1; 0]]%float;
     gain := None;
     bias := None;
     max_rates := Lit [200; 300; 400]%float;
     intercepts := Lit [0; 0.5; 0.25]%float;
     noise := Some white_noise |}.

Definition reseeded_model : Model (F:=float) :=
  {| seeds := {[ EnsKey 0 := 99%Z ]}; sig := ∅; operators := []; params := ∅;
     signals := []; warned := [] |}.

(** An ensemble the seed table does not know. *)
Definition stranger_ens : Ensemble (F:=float) (RandomState:=Z) :=
  {| ens_id := 5; ens_str := "<Ensemble F>";
     dimensions := 2; n_neurons := 3; radius := 1.5%float;
     neuron_type := rate_neurons;
     eval_points := Dist (const_dist 0.5%float);
     n_eval_points := Some 4;
     encoders := Lit [[3; 4]; [0; 2]; [1; 0]]%float;
     gain := Some (Lit [1; 2; 3]%float);
     bias := Some (Lit [0; 0; 0]%float);
     max_rates := Dist (const_dist 200%float);
     intercepts := Dist (const_dist 0.25%float);
     noise := Some white_noise |}.

(** Gains of the wrong length, and a single gain for three neurons. *)
Definition short_gain_ens : Ensemble (F:=float) (RandomState:=Z) :=
  with_gain_bias (Some (Lit [1; 2]%float)) (Some (Lit [0; 0]%float)) base_ens.

Definition single_gain_ens : Ensemble (F:=float) (RandomState:=Z) :=
  with_gain_bias (Some (Lit [3]%float)) (Some (Lit [0; 0; 0]%float)) base_ens.

(** A 1-d literal of fifty evaluation points against a hint of forty. *)
Definition flat_ens : Ensemble (F:=float) (RandomState:=Z) :=
  with_eval_points (Lit {| shape := [50]; data := repeat 0.5%float 50 |})
    fifty_ens.

(** A direct ensemble without noise. *)
Definition quiet_direct_ens : Ensemble (F:=float) (RandomState:=Z) :=
  {| ens_id := 0; ens_str := "<Ensemble A>";
     dimensions := 2; n_neurons := 3; radius := 1.5%float;
     neuron_type := direct_neurons;
     eval_points := Dist (const_dist 0.5%float);
     n_eval_points := Some 4;
     encoders := Dist (const_dist 1%float);
     gain := None;
     bias := None;
     max_rates := Dist (const_dist 200%float);
     intercepts := Dist (const_dist 0.25%float);
     noise := None |}.

(** Rectified linear rates, [max(gain * x + bias, 0)] entry by entry. *)
Definition linear_rates (nt : NeuronType (F:=float)) (x : list (list float))
    (gain bias : list float) : list (list float) :=
  map (fun row =>
         zip_with (fun xg b =>
                     let j := (xg + b)%float in
                     if PrimFloat.ltb 0 j then j else 0%float)
                  (zip_with PrimFloat.mul row gain) bias) x.

(** The random state is seeded with the seed itself. *)
Definition mk_rng (seed : Z) : Z := seed.

(** A default point count growing with the dimensions and the neurons. *)

Definition default_points (n_neurons dimensions : nat) : nat :=
  Nat.max (Nat.min (Nat.max (500 * dimensions) 750) 2500) (2 * n_neurons).

End Examples.


(** * Properties *)

Section Properties.

Context {F : Type} {SF : Scalar F} {RandomState : Type}.
Variable mkRandomState : Z -> RandomState.
Variable default_n_eval_points : nat -> nat -> nat.

Implicit Types ens : Ensemble (F:=F) (RandomState:=RandomState).
Implicit Types m : Model (F:=F).
Implicit Types rng : RandomState.

Local Abbreviation gen := (gen_eval_points default_n_eval_points).

(** ** [get_gain_bias] *)

(** C9: when both [gain] and [bias] are given, [get_gain_bias] samples the
    gain and then the bias through [sample], threading the random state,
    and returns [None] for both [max_rates] and [intercepts]; neither the
    neuron model nor the [max_rates]/[intercepts] parameters take part. *)
Theorem get_gain_bias_both ens g b rng :
  gain ens = Some g ->
  bias ens = Some b ->
  let sg := sample None g (n_neurons ens) rng in
  let sb := sample None b (n_neurons ens) sg.2 in
  get_gain_bias ens rng = Return (sg.1, sb.1, None, None, sb.2).
Proof.
  intros Hg Hb. unfold get_gain_bias. rewrite Hg, Hb. cbn zeta.
  destruct (sample None g (n_neurons ens) rng) as [gv rng1]. cbn [fst snd].
  destruct (sample None b (n_neurons ens) rng1) as [bv rng2]. reflexivity.
Qed.

(** C3 (amended): when exactly one of [gain] and [bias] is given,
    [get_gain_bias] raises [NotImplementedError] at once, whatever the
    random state and without drawing from it; the message names the
    ensemble and says that gain or bias was set but not both, and it is
    the same message whichever of the two was set. *)
Theorem get_gain_bias_exactly_one ens rng :
  exactly_one_of_gain_bias ens = true ->
  get_gain_bias ens rng =
    Raise (NotImplementedError
             ("gain or bias set for " +:+ ens_str ens +:+
              ", but not both. Solving for one given the other is not implemented yet.")).
Proof.
  unfold exactly_one_of_gain_bias, get_gain_bias.
  destruct (gain ens), (bias ens); intros Hx; try discriminate; reflexivity.
Qed.

(** The same fact, for use inside the build. *)
Lemma get_gain_bias_raises ens rng :
  exactly_one_of_gain_bias ens = true ->
  get_gain_bias ens rng = Raise (NotImplementedError (gain_bias_message ens)).
Proof.
  unfold exactly_one_of_gain_bias, get_gain_bias.
  destruct (gain ens), (bias ens); intros Hx; try discriminate; reflexivity.
Qed.

(** ** [gen_eval_points] *)

Lemma gen_eval_points_literal_2d ens a rng (scale : bool) :
  ndim a = 2 ->
  exists ws,
    gen ens (Lit a) rng scale =
      (ws, Return (if scale then scale_by_radius ens a else a, rng)) /\
    forall n, n_eval_points ens = Some n -> hd 0 (shape a) <> n ->
              ws = [mismatch_warning].
Proof.
  intros Hnd. unfold gen_eval_points, ndim in *.
  destruct (shape a) as [|rows [|cols [|]]] eqn:Hs; try discriminate Hnd.
  destruct (n_eval_points ens) as [n|]; cbn.
  - destruct (decide (rows = n)) as [->|Hne].
    + eexists; split; [reflexivity|]. intros n' [= <-] Hneq. done.
    + eexists; split; [reflexivity|]. done.
  - eexists; split; [reflexivity|]. intros n' [=].
Qed.

Lemma gen_eval_points_bad_ndim ens a rng (scale : bool) :
  ndim a <> 2 ->
  exists ws e, gen ens (Lit a) rng scale = (ws, Raise e) /\ shape_error e /\
    ((n_eval_points ens = None \/ ndim a <> 0) -> e = AssertionError).
Proof.
  intros Hnd. unfold gen_eval_points, shape_error.
  destruct (decide (ndim a = 2)) as [|_]; [done|].
  unfold ndim in *.
  destruct (n_eval_points ens) as [n|], (shape a) as [|rows rest];
    cbn; eexists _, _; (split; [reflexivity|]); split; auto.
  intros [[=]|Hz]; done.
Qed.

(** ** Arrays *)

Lemma lookup_map {A B} (f : A -> B) (l : list A) i :
  map f l !! i = f <$> (l !! i).
Proof.
  revert i. induction l as [|x l IH]; intros [|i]; cbn; auto.
Qed.

Section UnitRows.

Context {UL : UnitLaws F}.

Lemma sum_squares_after i s len :
  i < s ->
  fold_left fadd (map (fun x => fmul x x) (map (diagonal i) (seq s len))) f1 = f1.
Proof.
  revert s. induction len as [|len IH]; intros s Hlt; cbn [seq map fold_left];
    [reflexivity|].
  replace (diagonal i s) with f0
    by (unfold diagonal; destruct (Nat.eqb_spec i s); [lia | reflexivity]).
  rewrite law_mul_0_0, law_add_1_0. apply IH. lia.
Qed.

Lemma sum_squares_at i s len :
  s <= i < s + len ->
  fold_left fadd (map (fun x => fmul x x) (map (diagonal i) (seq s len))) f0 = f1.
Proof.
  revert s. induction len as [|len IH]; intros s Hlt; cbn [seq map fold_left];
    [lia|].
  destruct (decide (i = s)) as [->|Hne].
  - replace (diagonal s s) with f1 by (unfold diagonal; by rewrite Nat.eqb_refl).
    rewrite law_mul_1_1, law_add_0_1. apply sum_squares_after. lia.
  - replace (diagonal i s) with f0
      by (unfold diagonal; destruct (Nat.eqb_spec i s); [lia | reflexivity]).
    rewrite law_mul_0_0, law_add_0_0. apply IH. lia.
Qed.

(** Every row of the identity matrix has norm one, and dividing it by
    its norm gives it back. *)
Lemma normalize_identity n : normalize_rows (identity n) = identity n.
Proof.
  unfold normalize_rows, identity. rewrite map_map.
  apply map_ext_in. intros i Hi. apply in_seq in Hi.
  unfold norm, sum_squares.
  rewrite sum_squares_at by lia. rewrite law_sqrt_1, map_map.
  apply map_ext. intros j. unfold diagonal.
  destruct (Nat.eqb i j); [apply law_div_1_1 | apply law_div_0_1].
Qed.

End UnitRows.

Lemma mul_column_rows (a se : matrix F) (c : vector F) :
  length c = length a ->
  mul_column a c = Return se ->
  length se = length a /\
  forall i j row s x,
    a !! i = Some row -> c !! i = Some s -> row !! j = Some x ->
    exists row', se !! i = Some row' /\ length row' = length row /\
                 row' !! j = Some (fmul x s).
Proof.
  intros Hlen. unfold mul_column.
  destruct (decide (length a = length c)) as [_|Hne]; [|congruence].
  intros [= <-]. split.
  - rewrite length_zip_with. lia.
  - intros i j row s x Hrow Hs Hx.
    exists (map (fun y => fmul y s) row). repeat split.
    + rewrite lookup_zip_with, Hrow, Hs. reflexivity.
    + apply length_map.
    + rewrite lookup_map, Hx. reflexivity.
Qed.

(** ** Stepping through the build monad *)

Lemma bind_Return {A B} (c : M (F:=F) A) (k : A -> M B) m m' b :
  bind c k m = (m', Return b) ->
  exists m1 a, c m = (m1, Return a) /\ k a m1 = (m', Return b).
Proof.
  unfold bind. destruct (c m) as [m1 [a|e]]; [eauto | discriminate].
Qed.

Lemma get_seed_Return k m m1 s :
  get_seed k m = (m1, Return s) -> seeds m !! k = Some s /\ m1 = m.
Proof. unfold get_seed. destruct (seeds m !! k); by intros [= -> ->]. Qed.

Lemma get_sig_Return k role m m1 r :
  get_sig k role m = (m1, Return r) -> sig m !! (k, role) = Some r /\ m1 = m.
Proof. unfold get_sig. destruct (sig m !! (k, role)); by intros [= -> ->]. Qed.

Lemma lift_Return {A} (o : outcome A) m m1 a :
  lift o m = (m1, Return a) -> o = Return a /\ m1 = m.
Proof. unfold lift. by intros [= -> ->]. Qed.

Lemma pure_step_inv {A} m1 m2 (a b : A) :
  (m1, Return a) = (m2, Return b) -> m1 = m2 /\ a = b.
Proof. by intros [= -> ->]. Qed.

Lemma bind_step {A B} (c : M (F:=F) A) (k : A -> M B) m m1 a :
  c m = (m1, Return a) -> bind c k m = k a m1.
Proof. unfold bind. by intros ->. Qed.

Lemma bind_raise {A B} (c : M (F:=F) A) (k : A -> M B) m m1 e :
  c m = (m1, Raise e) -> bind c k m = (m1, Raise e).
Proof. unfold bind. by intros ->. Qed.

Lemma get_seed_Some k m s :
  seeds m !! k = Some s -> get_seed k m = (m, Return s).
Proof. unfold get_seed. by intros ->. Qed.

Lemma get_seed_None k m :
  seeds m !! k = None -> get_seed k m = (m, Raise KeyError).
Proof. unfold get_seed. by intros ->. Qed.

Lemma get_sig_Some k role m r :
  sig m !! (k, role) = Some r -> get_sig k role m = (m, Return r).
Proof. unfold get_sig. by intros ->. Qed.

(** ** Computations that leave a stored record alone *)

Lemma keeps_bind {A B} k (b : BuiltEnsemble (F:=F)) (c : M (F:=F) A) (f : A -> M B) :
  keeps_record k b c -> (forall a, keeps_record k b (f a)) ->
  keeps_record k b (bind c f).
Proof.
  intros Hc Hf m m' r. unfold bind.
  destruct (c m) as [m1 [a|e]] eqn:Hcm.
  - intros Hk Hm. eapply Hf; [exact Hk|]. eapply Hc; eauto.
  - intros [= <- <-]. eapply Hc; eauto.
Qed.

Lemma keeps_unchanged {A} k (b : BuiltEnsemble (F:=F)) (c : M (F:=F) A) :
  (forall m, params (c m).1 = params m) -> keeps_record k b c.
Proof. intros Hc m m' r Hm. specialize (Hc m). rewrite Hm in Hc. cbn in Hc. congruence. Qed.

Lemma keeps_extends {A} k (b : BuiltEnsemble (F:=F)) (c : M (F:=F) A) :
  (forall m, extends m (c m).1) -> keeps_record k b c.
Proof.
  intros Hc m m' r Hm. destruct (Hc m) as (_ & _ & Hp & _).
  rewrite Hm in Hp. apply Hp.
Qed.

Lemma keeps_set_params k (b : BuiltEnsemble (F:=F)) k' b' :
  k' <> k -> keeps_record k b (set_params k' b').
Proof.
  intros Hne m m' r [= <- _]. cbn. by rewrite lookup_insert_ne.
Qed.

End Properties.

(** Lookups in [model.sig] just after a store. *)
Ltac tidy_lookup H :=
  repeat first
    [ rewrite lookup_insert_eq in H
    | rewrite lookup_insert_ne in H by (unfold ens_key, neurons_key; congruence) ];
  try (injection H as <-).

(** Steps of a computation known to have returned: each [bind] yields
    the intermediate context and value. *)
Ltac step H :=
  lazymatch type of H with
  | bind _ _ _ = (_, Return _) =>
      let H1 := fresh "Hstep" in
      apply bind_Return in H as (? & ? & H1 & H); cbv beta iota in H;
      first
        [ apply get_seed_Return in H1 as [H1 ->]
        | apply get_sig_Return in H1 as [H1 ->];
          cbn [seeds sig operators params signals warned] in H1;
          tidy_lookup H1
        | unfold new_Signal, set_sig, add_op, warn_all, ret in H1;
          apply pure_step_inv in H1 as [<- <-]
        | apply lift_Return in H1 as [H1 ->]
        | repeat step H1 ];
      cbn [seeds sig operators params signals warned] in *
  | set_params _ _ _ = (_, Return _) =>
      unfold set_params in H; apply pure_step_inv in H as [<- _];
      cbn [seeds sig operators params signals warned] in *
  | add_op _ _ = (_, Return _) =>
      unfold add_op in H; apply pure_step_inv in H as [<- _];
      cbn [seeds sig operators params signals warned] in *
  | ret _ _ = (_, Return _) =>
      unfold ret in H; apply pure_step_inv in H as [<- _]
  | context [match ?x with pair _ _ => _ end] =>
      let E := fresh "Hpair" in destruct x eqn:E; cbv beta iota in H
  end.

(** One step forward of a computation applied to a known context. *)
Ltac forward :=
  first
    [ erewrite bind_step by
        first [ reflexivity
              | apply get_seed_Some; eassumption
              | apply get_sig_Some; cbn [sig];
                first [ eassumption | apply lookup_insert_eq ] ]
    | erewrite bind_raise by
        first [ reflexivity | apply get_seed_None; eassumption ] ];
  cbv beta iota zeta.

(** Use what the sub-builders guarantee about the calls made so far. *)
Ltac frame Hext :=
  repeat match goal with
  | Hp : build_process ?p ?s ?b ?M = (?x, _), Hn : noise _ = Some ?p |- _ =>
      let E := fresh "Hframe" in
      pose proof (proj2 Hext p s b M Hn) as E; rewrite Hp in E;
      cbn [fst seeds sig operators params signals warned] in E;
      destruct E as (? & ? & ? & ?); revert Hp
  | Hp : build_neurons ?nt ?k ?M = (?x, _) |- _ =>
      let E := fresh "Hframe" in
      pose proof (proj1 Hext k M) as E; rewrite Hp in E;
      cbn [fst seeds sig operators params signals warned] in E;
      destruct E as (? & ? & ? & ?); revert Hp
  end; intros.

(** Lookups after a sequence of stores. *)
Ltac solve_lookup :=
  repeat first
    [ rewrite lookup_insert_eq
    | rewrite lookup_insert_ne by (unfold ens_key, neurons_key; congruence) ];
  try reflexivity.

(** A binding, signal, record or warning that a sub-builder kept. *)
Ltac by_frame :=
  match goal with
  | Hf : forall k r, _ !! k = Some r -> sig ?x !! k = Some r
    |- sig ?x !! _ = Some _ => apply Hf
  | Hf : forall i s, _ !! i = Some s -> signals ?x !! i = Some s
    |- signals ?x !! _ = Some _ => apply Hf
  | Hf : forall k b, _ !! k = Some b -> params ?x !! k = Some b
    |- params ?x !! _ = Some _ => apply Hf
  | Hf : forall w, w ∈ _ -> w ∈ warned ?x
    |- _ ∈ warned ?x => apply Hf
  end;
  cbn [seeds sig operators params signals warned].

Section BuildProperties.

Context {F : Type} {SF : Scalar F} {RandomState : Type}.
Variable mkRandomState : Z -> RandomState.
Variable default_n_eval_points : nat -> nat -> nat.

Implicit Types ens : Ensemble (F:=F) (RandomState:=RandomState).
Implicit Types m : Model (F:=F).
Implicit Types rng : RandomState.

Local Abbreviation build := (build_ensemble mkRandomState default_n_eval_points).
Local Abbreviation gen := (gen_eval_points default_n_eval_points).

(** ** [build_ensemble]: the failing paths *)

(** C10: when exactly one of [gain] and [bias] is given (and the seed
    lookup and the evaluation points went through), the build raises
    [NotImplementedError] from a context that it has already changed: the
    warnings of the evaluation-point stage are emitted, the input signal
    of dimension [D] is allocated and registered under ["in"], and a
    [Reset] of it is appended to the operators. With a distribution for
    the evaluation points, they were drawn from the random state derived
    from the seed. *)
Theorem build_aborts_half_wired ens m seed ws pts rng1 :
  exactly_one_of_gain_bias ens = true ->
  seeds m !! ens_key ens = Some seed ->
  gen ens (eval_points ens) (mkRandomState seed) true = (ws, Return (pts, rng1)) ->
  build ens m =
    ({| seeds := seeds m;
        sig := <[(ens_key ens, "in") := length (signals m)]> (sig m);
        operators := operators m ++ [Reset (length (signals m))];
        params := params m;
        signals := signals m ++
                   [{| initial_value := Vec (zeros (dimensions ens));
                       name := ens_str ens +:+ ".signal";
                       readonly := false |}];
        warned := warned m ++ ws |},
     Raise (NotImplementedError (gain_bias_message ens)))
  /\ (forall d, eval_points ens = Dist d ->
        let n_points := default (default_n_eval_points (n_neurons ens) (dimensions ens))
                                (n_eval_points ens) in
        let s := dist_sample d n_points (Some (dimensions ens)) (mkRandomState seed) in
        pts = scale_by_radius ens (of_matrix (dimensions ens) s.1) /\ rng1 = s.2).
Proof.
  intros Hx Hseed Hgen. split.
  - unfold build_ensemble. forward. rewrite Hgen. do 6 forward.
    destruct (raw_encoders ens rng1) as [raw rng2].
    rewrite (get_gain_bias_raises ens rng2 Hx). forward.
    reflexivity.
  - intros d Hd. rewrite Hd in Hgen. unfold gen_eval_points in Hgen.
    destruct (n_eval_points ens) as [n|]; cbn in *;
      match type of Hgen with
      | context [dist_sample ?d ?n ?k ?r] => destruct (dist_sample d n k r)
      end; cbn; by simplify_eq.
Qed.

(** C6: when exactly one of [gain] and [bias] is given the build always
    ends in an exception, and at that point the binding of the
    ["encoders"] signal of the ensemble is what it was before the build
    (none, when none was registered) and no result record was stored.
    The exception is the [NotImplementedError] of [get_gain_bias] as soon
    as the seed is found and the evaluation points are well formed. *)
Theorem build_exactly_one_no_encoder_signal ens m :
  exactly_one_of_gain_bias ens = true ->
  exists m' e,
    build ens m = (m', Raise e) /\
    sig m' !! (ens_key ens, "encoders") = sig m !! (ens_key ens, "encoders") /\
    params m' = params m /\
    (forall seed ws pts rng1,
        seeds m !! ens_key ens = Some seed ->
        gen ens (eval_points ens) (mkRandomState seed) true = (ws, Return (pts, rng1)) ->
        e = NotImplementedError (gain_bias_message ens)).
Proof.
  intros Hx. unfold build_ensemble.
  destruct (seeds m !! ens_key ens) as [seed|] eqn:Hseed; forward.
  2:{ eexists _, _. repeat split; try reflexivity. intros; discriminate. }
  destruct (gen ens (eval_points ens) (mkRandomState seed) true)
    as [ws [[pts rng1]|e]] eqn:Hg; do 2 forward.
  2:{ eexists _, _. repeat split; try reflexivity. intros; congruence. }
  do 4 forward.
  destruct (raw_encoders ens rng1) as [raw rng2].
  rewrite (get_gain_bias_raises ens rng2 Hx). forward.
  eexists _, _. repeat split; try reflexivity.
  cbn. by rewrite lookup_insert_ne.
Qed.

(** C8: when the literal evaluation points are not 2-dimensional,
    [gen_eval_points] raises a shape error and returns no points, and the
    build ends in an exception having stored no result record, registered
    no signal and added no operator; that exception is the shape error as
    soon as the seed of the ensemble is found. *)
Theorem build_bad_eval_points_ndim ens a m :
  eval_points ens = Lit a ->
  ndim a <> 2 ->
  (forall rng scale, exists ws e,
      gen ens (Lit a) rng scale = (ws, Raise e) /\ shape_error e) /\
  exists m' e,
    build ens m = (m', Raise e) /\
    params m' = params m /\ sig m' = sig m /\
    operators m' = operators m /\ signals m' = signals m /\
    (is_Some (seeds m !! ens_key ens) -> shape_error e).
Proof.
  intros Ha Hnd. split.
  - intros rng scale.
    destruct (gen_eval_points_bad_ndim default_n_eval_points ens a rng scale Hnd) as (ws & e & H1 & H2 & _).
    eauto.
  - unfold build_ensemble. rewrite Ha.
    destruct (seeds m !! ens_key ens) as [seed|] eqn:Hseed; forward.
    + destruct (gen_eval_points_bad_ndim default_n_eval_points ens a
                  (mkRandomState seed) true Hnd)
        as (ws & e & H1 & H2 & _).
      rewrite H1. do 2 forward. eexists _, _. repeat split; done.
    + eexists _, _. repeat split; try reflexivity. intros [? [=]].
Qed.

(** ** [build_ensemble]: the successful path *)

(** What a completed build computed, and the record it stored. *)
Lemma build_ensemble_Return ens m m' :
  build ens m = (m', Return tt) ->
  exists seed ws pts rng1 raw rng2 g bi mr ic rng3 se,
    seeds m !! ens_key ens = Some seed /\
    gen ens (eval_points ens) (mkRandomState seed) true = (ws, Return (pts, rng1)) /\
    raw_encoders ens rng1 = (raw, rng2) /\
    get_gain_bias ens rng2 = Return (g, bi, mr, ic, rng3) /\
    scale_encoders ens (normalize_rows raw) g = Return se /\
    params m' !! ens_key ens =
      Some {| built_eval_points := pts;
              built_encoders := normalize_rows raw;
              built_intercepts := ic;
              built_max_rates := mr;
              built_scaled_encoders := se;
              built_gain := g;
              built_bias := bi |}.
Proof.
  intros H. unfold build_ensemble in H.
  destruct (is_Direct (neuron_type ens)) eqn:Hd; destruct (noise ens) eqn:Hn;
    repeat step H; subst;
    eexists _, _, _, _, _, _, _, _, _, _, _, _;
    (repeat split; [eassumption ..|]); apply lookup_insert_eq.
Qed.

(** C2: after a completed build of an ensemble whose neuron model is
    [Direct] (over arithmetic satisfying [UnitLaws], as binary64 does, and
    with a noise builder that only adds to the context), the signals
    registered as the input and as the output of the neurons are one and
    the same object, which is also the output of the ensemble, and the
    stored [encoders] and [scaled_encoders] are both the [D]x[D] identity
    matrix. *)
Theorem build_direct ens m m' :
  UnitLaws F ->
  is_Direct (neuron_type ens) = true ->
  sub_builders_extend ens ->
  build ens m = (m', Return tt) ->
  exists r b,
    sig m' !! (neurons_key ens, "in") = Some r /\
    sig m' !! (neurons_key ens, "out") = Some r /\
    sig m' !! (ens_key ens, "out") = Some r /\
    params m' !! ens_key ens = Some b /\
    built_encoders b = identity (dimensions ens) /\
    built_scaled_encoders b = identity (dimensions ens).
Proof.
  intros UL Hd Hext H.
  destruct (build_ensemble_Return ens m m' H)
    as (seed & ws & pts & rng1 & raw & rng2 & g & bi & mr & ic & rng3 & se
        & _ & _ & Hraw & _ & Hse & Hrec).
  unfold raw_encoders in Hraw. unfold scale_encoders in Hse.
  rewrite Hd in Hraw, Hse. injection Hraw as <- _. injection Hse as <-.
  rewrite normalize_identity in Hrec.
  unfold build_ensemble in H. rewrite Hd in H.
  destruct (noise ens) as [p|] eqn:Hn; repeat step H; frame Hext.
  - match goal with
    | Hi : sig ?x !! (neurons_key ens, "in") = Some ?a,
      Ho : sig ?x !! (neurons_key ens, "out") = Some ?b,
      Hf : forall k r, _ !! k = Some r -> sig ?x !! k = Some r |- _ =>
        rewrite (Hf (neurons_key ens, "in") _ ltac:(by simplify_map_eq)) in Hi;
        rewrite (Hf (neurons_key ens, "out") _ ltac:(by simplify_map_eq)) in Ho;
        injection Hi as <-; injection Ho as <-
    end.
    eexists _, _. repeat split; [| | | exact Hrec | |]; try reflexivity; cbn.
    + solve_lookup. by_frame. solve_lookup.
    + solve_lookup. by_frame. solve_lookup.
    + apply lookup_insert_eq.
  - eexists _, _. repeat split; [| | | exact Hrec | |]; try reflexivity; cbn;
      by simplify_map_eq.
Qed.

(** A build leaves the records of the other ensembles alone, however it
    ends. *)
Lemma build_keeps_other ens k b :
  ens_key ens <> k ->
  sub_builders_extend ens ->
  keeps_record k b (build ens).
Proof.
  intros Hne [Hneurons Hnoise]. unfold build_ensemble.
  repeat first
    [ apply keeps_bind; [| intros ?]
    | apply keeps_set_params; exact Hne
    | apply keeps_extends; apply Hneurons
    | apply keeps_extends; intros ?; eapply Hnoise; first [eassumption | reflexivity]
    | apply keeps_unchanged; intros ?;
      unfold get_seed, get_sig, new_Signal, set_sig, add_op, warn_all, lift, ret;
      repeat case_match; reflexivity
    | progress cbv beta zeta
    | match goal with
      | |- keeps_record _ _ (match ?x with pair _ _ => _ end) => destruct x
      | |- keeps_record _ _ (if ?x then _ else _) => destruct x
      | |- keeps_record _ _ (match ?x with Some _ => _ | None => _ end) =>
          destruct x eqn:?
      end ].
Qed.

(** C1: two builds of the same ensemble in two build contexts that give
    it the same seed, whatever else the contexts hold (whatever was built
    before), store the same result record, so the same [eval_points],
    [encoders], [gain] and [bias]; and building any other ensemble
    afterwards (its sub-builders only adding to the context) leaves that
    record as it is, however that later build ends. *)
Theorem build_ensemble_deterministic ens m1 m2 m1' m2' :
  seeds m1 !! ens_key ens = seeds m2 !! ens_key ens ->
  build ens m1 = (m1', Return tt) ->
  build ens m2 = (m2', Return tt) ->
  exists b,
    params m1' !! ens_key ens = Some b /\
    params m2' !! ens_key ens = Some b /\
    forall other m3 r,
      ens_id other <> ens_id ens ->
      sub_builders_extend other ->
      build other m1' = (m3, r) ->
      params m3 !! ens_key ens = Some b.
Proof.
  intros Hseeds H1 H2.
  destruct (build_ensemble_Return ens m1 m1' H1)
    as (seed & ws & pts & rng1 & raw & rng2 & g & bi & mr & ic & rng3 & se
        & Hs & Hg & Hraw & Hgb & Hse & Hrec).
  destruct (build_ensemble_Return ens m2 m2' H2)
    as (seed' & ws' & pts' & rng1' & raw' & rng2' & g' & bi' & mr' & ic' & rng3' & se'
        & Hs' & Hg' & Hraw' & Hgb' & Hse' & Hrec').
  rewrite Hseeds, Hs' in Hs. injection Hs as ->.
  rewrite Hg in Hg'. injection Hg' as <- <- <-.
  rewrite Hraw in Hraw'. injection Hraw' as <- <-.
  rewrite Hgb in Hgb'. injection Hgb' as <- <- <- <- <-.
  rewrite Hse in Hse'. injection Hse' as <-.
  eexists. split; [exact Hrec|]. split; [exact Hrec'|].
  intros other m3 r Hid Hext Hb.
  eapply (build_keeps_other other); [| exact Hext | exact Hb | exact Hrec].
  unfold ens_key. congruence.
Qed.

Lemma scale_encoders_rows ens (enc se : matrix F) (g : vector F) :
  is_Direct (neuron_type ens) = false ->
  scale_encoders ens enc g = Return se ->
  length g = length enc ->
  length se = length enc /\
  forall i j row gi x,
    enc !! i = Some row -> g !! i = Some gi -> row !! j = Some x ->
    exists row', se !! i = Some row' /\ length row' = length row /\
                 row' !! j = Some (fmul x (fdiv gi (radius ens))).
Proof.
  intros Hd Hse Hlen. unfold scale_encoders in Hse. rewrite Hd in Hse.
  apply mul_column_rows in Hse as [Hl Hrows]; [| by rewrite length_map].
  split; [exact Hl|]. intros i j row gi x Hrow Hg Hx.
  apply (Hrows i j row (fdiv gi (radius ens)) x Hrow); [| exact Hx].
  rewrite lookup_map, Hg. reflexivity.
Qed.


(** C7: a literal 2-d array of evaluation points whose row count differs
    from [n_eval_points] does not make [gen_eval_points] fail: it emits
    the mismatch warning and returns the array itself, same shape and so
    its own row count, every entry multiplied by the radius. The warning
    and the shape check are those of the run without scaling, which the
    scaling follows. A build of such an ensemble that completes (its
    sub-builders only adding to the context) has emitted the warning and
    stored these scaled points. *)
Theorem eval_points_row_count_mismatch ens a n rows cols :
  eval_points ens = Lit a ->
  n_eval_points ens = Some n ->
  shape a = [rows; cols] ->
  rows <> n ->
  (forall rng,
      gen ens (Lit a) rng false = ([mismatch_warning], Return (a, rng)) /\
      gen ens (Lit a) rng true =
        ([mismatch_warning], Return (scale_by_radius ens a, rng))) /\
  shape (scale_by_radius ens a) = [rows; cols] /\
  data (scale_by_radius ens a) = map (fun x => fmul x (radius ens)) (data a) /\
  forall m m',
    sub_builders_extend ens ->
    build ens m = (m', Return tt) ->
    mismatch_warning ∈ warned m' /\
    exists b, params m' !! ens_key ens = Some b /\
              built_eval_points b = scale_by_radius ens a.
Proof.
  intros Ha Hn Hs Hne.
  assert (Hgen : forall rng (scale : bool),
             gen ens (Lit a) rng scale =
               ([mismatch_warning],
                Return (if scale then scale_by_radius ens a else a, rng))).
  { intros rng scale. unfold gen_eval_points, ndim. rewrite Hn, Hs. cbn.
    destruct (decide (rows = n)); [done|reflexivity]. }
  split; [intros rng; split; apply Hgen|].
  split; [exact Hs|]. split; [reflexivity|].
  intros m m' Hext H. unfold build_ensemble in H. rewrite Ha in H.
  destruct (is_Direct (neuron_type ens)) eqn:Hd;
    destruct (noise ens) as [p|] eqn:Hnoise; repeat step H; frame Hext;
    match goal with
    | Hp : gen _ _ _ _ = _ |- _ => rewrite Hgen in Hp; injection Hp as <- <-
    end;
    match goal with
    | Hr : Return _ = Return _ |- _ => injection Hr as <- <-
    end;
    (split;
     [ repeat by_frame; apply elem_of_app; right; apply list_elem_of_singleton;
       reflexivity
     | eexists; split; [apply lookup_insert_eq | reflexivity] ]).
Qed.

End BuildProperties.

(** * Exact arithmetic: the norm of the stored encoders *)

Section RealArithmetic.

Context {RandomState : Type}.
Variable mkRandomState : Z -> RandomState.
Variable default_n_eval_points : nat -> nat -> nat.

Implicit Types row : list R.

Open Scope R_scope.

Lemma norm_sum_squares row : norm row = sqrt (sum_squares row).
Proof. reflexivity. Qed.

Lemma fold_left_Rplus (l : list R) acc :
  fold_left Rplus l acc = acc + fold_left Rplus l 0.
Proof.
  revert acc. induction l as [|x l IH]; intros acc; cbn.
  - lra.
  - rewrite (IH (acc + x)), (IH (0 + x)). lra.
Qed.

Lemma sum_squares_cons x row :
  sum_squares (x :: row) = x * x + sum_squares row.
Proof.
  unfold sum_squares. cbn. rewrite fold_left_Rplus. lra.
Qed.

Lemma sum_squares_nonneg row : 0 <= sum_squares row.
Proof.
  induction row as [|x row IH].
  - unfold sum_squares. cbn. lra.
  - rewrite sum_squares_cons. nra.
Qed.

Lemma sum_squares_pos row :
  Exists (fun x => x <> 0) row -> 0 < sum_squares row.
Proof.
  induction 1 as [x row Hx | x row _ IH]; rewrite sum_squares_cons.
  - pose proof (sum_squares_nonneg row). nra.
  - nra.
Qed.

Lemma sum_squares_div row c :
  c <> 0 ->
  sum_squares (map (fun x => x / c) row) = sum_squares row / (c * c).
Proof.
  intros Hc. induction row as [|x row IH].
  - unfold sum_squares. cbn. field. exact Hc.
  - cbn [map]. rewrite !sum_squares_cons, IH. field. exact Hc.
Qed.

Lemma norm_pos row : Exists (fun x => x <> 0) row -> 0 < norm row.
Proof.
  intros H. rewrite norm_sum_squares. apply sqrt_lt_R0. by apply sum_squares_pos.
Qed.

(** A row with a nonzero entry, divided by its norm, has norm one. *)
Lemma norm_normalized row :
  Exists (fun x => x <> 0) row ->
  norm (map (fun x => x / norm row) row) = 1.
Proof.
  intros H. pose proof (norm_pos row H) as Hn.
  pose proof (sum_squares_pos row H) as Hs.
  rewrite norm_sum_squares, sum_squares_div by lra.
  rewrite (norm_sum_squares row) in *.
  rewrite sqrt_sqrt by lra.
  replace (sum_squares row / sum_squares row) with 1 by (field; lra).
  apply sqrt_1.
Qed.


End RealArithmetic.

(** * Further properties of the functions of ensemble.py *)

(** A step forward whose lookup goes through several stores. *)
Ltac forward_lookup :=
  erewrite bind_step by
    (apply get_sig_Some; cbn [sig]; solve_lookup);
  cbv beta iota zeta.

(** Follow a lookup back through stores and sub-builder calls. *)
Ltac chase_lookup := repeat first [by_frame | progress solve_lookup].

(** Follow a signal back to the store in which it was allocated. *)
Ltac chase_signal :=
  repeat first
    [ by_frame
    | match goal with
      | |- (signals _ ++ _)%list !! _ = Some _ => apply lookup_app_l_Some
      end ].

Section FurtherProperties.

Context {F : Type} {SF : Scalar F} {RandomState : Type}.
Variable mkRandomState : Z -> RandomState.
Variable default_n_eval_points : nat -> nat -> nat.
Variable rates : NeuronType (F:=F) -> list (list F) -> list F -> list F -> list (list F).

Implicit Types ens : Ensemble (F:=F) (RandomState:=RandomState).
Implicit Types m : Model (F:=F).
Implicit Types rng : RandomState.

Local Abbreviation build := (build_ensemble mkRandomState default_n_eval_points).
Local Abbreviation gen := (gen_eval_points default_n_eval_points).

(** ** [gen_eval_points] *)



Lemma gen_eval_points_first_axis ens a rows rest rng (scale : bool) :
  shape a = rows :: rest ->
  gen ens (Lit a) rng scale =
    (match n_eval_points ens with
     | Some n => if decide (rows = n) then [] else [mismatch_warning]
     | None => []
     end,
     if decide (length rest = 1)
     then Return (if scale then scale_by_radius ens a else a, rng)
     else Raise AssertionError).
Proof.
  intros Hs. unfold gen_eval_points, ndim. rewrite Hs. cbn [length].
  destruct (n_eval_points ens) as [n|];
    destruct (decide (S (length rest) = 2)), (decide (length rest = 1));
    try lia; reflexivity.
Qed.


(** ** [get_gain_bias] *)



(** ** [get_activities] *)

(** X6: [get_activities] raises [KeyError] exactly when the ensemble has
    no result record in the build context, that is, has not been built;
    a shape mismatch of the points is a different error. *)
Theorem get_activities_KeyError m ens (points : list (list F)) :
  get_activities rates m ens points = Raise KeyError <->
  params m !! ens_key ens = None.
Proof.
  unfold get_activities, dot_transposed.
  destruct (params m !! ens_key ens) as [b|]; [|done].
  split; [|discriminate].
  destruct (forallb _ points); discriminate.
Qed.

(** ** [build_ensemble]: the table of result records *)

Lemma params_unchanged_bind {A B} (c : M (F:=F) A) (f : A -> M B) :
  params_unchanged c -> (forall a, params_unchanged (f a)) ->
  params_unchanged (bind c f).
Proof.
  intros Hc Hf m m' r. unfold bind.
  destruct (c m) as [m1 [a|e]] eqn:Hcm.
  - intros Hk. rewrite (Hf a m1 m' r Hk). eapply Hc; eauto.
  - intros [= <- <-]. eapply Hc; eauto.
Qed.

Lemma params_unchanged_step {A} (c : M (F:=F) A) :
  (forall m, params (c m).1 = params m) -> params_unchanged c.
Proof. intros Hc m m' r Hm. specialize (Hc m). by rewrite Hm in Hc. Qed.

Lemma stores_on_return_bind {A B} k (c : M (F:=F) A) (f : A -> M B) :
  params_unchanged c -> (forall a, stores_on_return k (f a)) ->
  stores_on_return k (bind c f).
Proof.
  intros Hc Hf m m' r. unfold bind.
  destruct (c m) as [m1 [a|e]] eqn:Hcm.
  - intros Hk. specialize (Hf a m1 m' r Hk).
    rewrite (Hc m m1 _ Hcm) in Hf. exact Hf.
  - intros [= <- <-]. eapply Hc; eauto.
Qed.

Lemma stores_on_return_set_params k (b : BuiltEnsemble (F:=F)) :
  stores_on_return k (set_params k b).
Proof. intros m m' r [= <- <-]. cbn. eauto. Qed.

(** Splitting a computation along its binds, let-patterns and branches. *)
Ltac split_steps Hneurons Hnoise :=
  repeat first
    [ apply stores_on_return_bind; [| intros ?]
    | apply params_unchanged_bind; [| intros ?]
    | apply stores_on_return_set_params
    | apply params_unchanged_step; apply Hneurons
    | apply params_unchanged_step; intros ?; eapply Hnoise;
      first [eassumption | reflexivity]
    | apply params_unchanged_step; intros ?;
      unfold get_seed, get_sig, new_Signal, set_sig, add_op, warn_all, lift, ret;
      repeat case_match; reflexivity
    | progress cbv beta zeta
    | match goal with
      | |- _ (match ?x with pair _ _ => _ end) => destruct x
      | |- _ (if ?x then _ else _) => destruct x
      | |- _ (match ?x with Some _ => _ | None => _ end) => destruct x eqn:?
      end ].

(** X7: when the sub-builders leave the table of result records alone, a
    build changes that table only by storing the record of its own
    ensemble, and only when it returns: a build that raises, at whatever
    stage, leaves every record as it was and stores none. *)
Theorem build_stores_only_on_return ens m m' r :
  sub_builders_keep_params ens ->
  build ens m = (m', r) ->
  match r with
  | Return _ => exists b, params m' = <[ens_key ens := b]> (params m)
  | Raise _ => params m' = params m
  end.
Proof.
  intros [Hneurons Hnoise]. revert m m' r.
  change (stores_on_return (ens_key ens) (build ens)).
  unfold build_ensemble. split_steps Hneurons Hnoise.
Qed.

(** X8: when the seed table has no entry for the ensemble, the build
    raises [KeyError] before anything else happens: the build context is
    returned exactly as it was. *)
Theorem build_missing_seed ens m :
  seeds m !! ens_key ens = None ->
  build ens m = (m, Raise KeyError).
Proof.
  intros Hseed. unfold build_ensemble. forward. reflexivity.
Qed.

(** X9: a literal of evaluation points that fails the [ndim] check and
    whose first axis differs from [n_eval_points] makes the build raise
    [AssertionError] with the mismatch warning already emitted; nothing
    else of the build context has changed. *)
Theorem build_warns_then_asserts ens a rows rest n m seed :
  eval_points ens = Lit a ->
  shape a = rows :: rest ->
  length rest <> 1 ->
  n_eval_points ens = Some n ->
  rows <> n ->
  seeds m !! ens_key ens = Some seed ->
  build ens m =
    ({| seeds := seeds m; sig := sig m; operators := operators m;
        params := params m; signals := signals m;
        warned := warned m ++ [mismatch_warning] |},
     Raise AssertionError).
Proof.
  intros Ha Hs Hrest Hn Hne Hseed. unfold build_ensemble. forward.
  rewrite Ha, (gen_eval_points_first_axis ens a rows rest _ true Hs), Hn.
  destruct (decide (rows = n)); [done|].
  destruct (decide (length rest = 1)); [done|].
  do 2 forward. reflexivity.
Qed.

(** ** [build_ensemble]: what a completed build has done *)

(** X10: a completed build drew everything from one random stream seeded
    with [model.seeds[ens]], in this order: evaluation points, encoders,
    gain and bias; the record stored under the ensemble holds the points,
    the encoders with each row divided by its norm, the scaled encoders
    computed from those and the gain, and the gain, bias, maximum rates
    and intercepts exactly as [get_gain_bias] returned them. *)
Theorem build_record ens m m' :
  build ens m = (m', Return tt) ->
  exists seed ws pts rng1 raw rng2 g bi mr ic rng3 se,
    seeds m !! ens_key ens = Some seed /\
    gen ens (eval_points ens) (mkRandomState seed) true = (ws, Return (pts, rng1)) /\
    raw_encoders ens rng1 = (raw, rng2) /\
    get_gain_bias ens rng2 = Return (g, bi, mr, ic, rng3) /\
    scale_encoders ens (normalize_rows raw) g = Return se /\
    params m' !! ens_key ens =
      Some {| built_eval_points := pts;
              built_encoders := normalize_rows raw;
              built_intercepts := ic;
              built_max_rates := mr;
              built_scaled_encoders := se;
              built_gain := g;
              built_bias := bi |}.
Proof. apply build_ensemble_Return. Qed.

(** X11: the last operator a completed build registers is the encoding
    [DotInc], and its operands are the signals registered at the end of
    the build as the encoders and the input of the ensemble and the input
    of its neurons, whatever the sub-builders did before. *)
Theorem build_last_operator ens m m' :
  build ens m = (m', Return tt) ->
  exists (ops : list Operator) a x y,
    operators m' = (ops ++ [DotInc a x y (ens_str ens +:+ " encoding")])%list /\
    sig m' !! (ens_key ens, "encoders") = Some a /\
    sig m' !! (ens_key ens, "in") = Some x /\
    sig m' !! (neurons_key ens, "in") = Some y.
Proof.
  intros H. unfold build_ensemble in H.
  destruct (is_Direct (neuron_type ens)) eqn:Hd;
    destruct (noise ens) as [p|] eqn:Hn; repeat step H;
    eexists _, _, _, _; (split; [reflexivity|]);
    repeat split; solve_lookup; try eassumption; solve_lookup.
Qed.

Lemma bind_assoc {A B C} (c : M (F:=F) A) (f : A -> M B) (h : B -> M C) m :
  bind (bind c f) h m = bind c (fun a => bind (f a) h) m.
Proof. unfold bind. destruct (c m) as [m1 [a|e]]; reflexivity. Qed.

(** All the steps forward that need no further fact. *)
Ltac run_forward :=
  repeat (first [forward | forward_lookup | rewrite bind_assoc];
          cbn [seeds sig operators params signals warned]).

Lemma lookup_at_length {A} (l1 l2 : list A) x k :
  k = length l1 -> (l1 ++ x :: l2)%list !! k = Some x.
Proof. intros ->. apply list_lookup_middle. reflexivity. Qed.

Lemma lookup_app_plus {A} (l1 l2 : list A) i :
  (l1 ++ l2)%list !! (length l1 + i) = l2 !! i.
Proof. rewrite lookup_app_r by lia. f_equal. lia. Qed.

(** X12: in standard mode (sub-builders only adding to the context) a
    completed build has registered freshly allocated signals: the input
    of the ensemble, and two distinct signals for the input and the
    output of the neurons, the latter also being the output of the
    ensemble; they are zero vectors of lengths [D], [N] and [N], and next
    to them sits the read-only bias signal holding the recorded bias. *)
Theorem build_standard_signals ens m m' :
  is_Direct (neuron_type ens) = false ->
  sub_builders_extend ens ->
  build ens m = (m', Return tt) ->
  let n0 := length (signals m) in
  sig m' !! (ens_key ens, "in") = Some n0 /\
  sig m' !! (neurons_key ens, "in") = Some (n0 + 1) /\
  sig m' !! (neurons_key ens, "out") = Some (n0 + 2) /\
  sig m' !! (ens_key ens, "out") = Some (n0 + 2) /\
  signals m' !! n0 =
    Some {| initial_value := Vec (zeros (dimensions ens));
            name := ens_str ens +:+ ".signal"; readonly := false |} /\
  signals m' !! (n0 + 1) =
    Some {| initial_value := Vec (zeros (n_neurons ens));
            name := ens_str ens +:+ ".neuron_in"; readonly := false |} /\
  signals m' !! (n0 + 2) =
    Some {| initial_value := Vec (zeros (n_neurons ens));
            name := ens_str ens +:+ ".neuron_out"; readonly := false |} /\
  exists b,
    params m' !! ens_key ens = Some b /\
    signals m' !! (n0 + 3) =
      Some {| initial_value := Vec (built_bias b);
              name := ens_str ens +:+ ".bias"; readonly := true |}.
Proof.
  intros Hd Hext H. cbn zeta. unfold build_ensemble in H. rewrite Hd in H.
  pose proof (@lookup_at_length (Signal (F:=F))) as Hat.
  destruct (noise ens) as [p|] eqn:Hn; repeat step H; frame Hext;
    match goal with
    | Hi : sig _ !! (ens_key ens, "in") = Some ?a,
      Hni : sig _ !! (neurons_key ens, "in") = Some ?b,
      Hno : sig _ !! (neurons_key ens, "out") = Some ?c |- _ =>
        assert (Some a = Some (length (signals m))) as [= ->]
          by (rewrite <- Hi; chase_lookup);
        assert (Some b = Some (length (signals m) + 1)) as [= ->]
          by (rewrite <- Hni; chase_lookup; rewrite length_app; reflexivity);
        assert (Some c = Some (length (signals m) + 2)) as [= ->]
          by (rewrite <- Hno; chase_lookup; rewrite !length_app; cbn; f_equal; lia)
    end;
    (split; [chase_lookup|]);
    (split; [chase_lookup; rewrite length_app; reflexivity|]);
    (split; [chase_lookup; rewrite !length_app; cbn; f_equal; lia|]);
    (split; [chase_lookup|]);
    (split; [chase_signal;
             rewrite <- ?app_assoc; cbn [app]; apply Hat; reflexivity|]);
    (split; [chase_signal;
             rewrite <- ?app_assoc; cbn [app]; rewrite lookup_app_plus; reflexivity|]);
    (split; [chase_signal;
             rewrite <- ?app_assoc; cbn [app]; rewrite lookup_app_plus; reflexivity|]);
    (eexists; split; [apply lookup_insert_eq|]); cbn [built_bias];
    chase_signal;
    rewrite <- ?app_assoc; cbn [app]; rewrite lookup_app_plus; reflexivity.
Qed.

(** X13: the whole effect of a build in pass-through mode without noise.
    Gain and bias are still resolved (and must resolve) although neither
    is used afterwards, and no encoder is drawn. Exactly three signals
    are allocated (input, neuron input, encoders) and exactly three
    operators appended, in this order: the reset of the input, the reset
    of the neuron input, the encoding [DotInc]; the neuron builder is
    not called and no bias signal exists. *)
Theorem build_direct_exact ens m seed ws pts rng1 g b mr ic rng2 :
  is_Direct (neuron_type ens) = true ->
  noise ens = None ->
  seeds m !! ens_key ens = Some seed ->
  gen ens (eval_points ens) (mkRandomState seed) true = (ws, Return (pts, rng1)) ->
  get_gain_bias ens rng1 = Return (g, b, mr, ic, rng2) ->
  let n0 := length (signals m) in
  let eye := normalize_rows (identity (dimensions ens)) in
  build ens m =
    ({| seeds := seeds m;
        sig := <[(ens_key ens, "out") := n0 + 1]>
                 (<[(ens_key ens, "encoders") := n0 + 2]>
                    (<[(neurons_key ens, "out") := n0 + 1]>
                       (<[(neurons_key ens, "in") := n0 + 1]>
                          (<[(ens_key ens, "in") := n0]> (sig m)))));
        operators :=
          (operators m ++
           [Reset n0; Reset (n0 + 1);
            DotInc (n0 + 2) n0 (n0 + 1) (ens_str ens +:+ " encoding")])%list;
        params :=
          <[ens_key ens :=
              {| built_eval_points := pts;
                 built_encoders := eye;
                 built_intercepts := ic;
                 built_max_rates := mr;
                 built_scaled_encoders := eye;
                 built_gain := g;
                 built_bias := b |}]> (params m);
        signals :=
          (signals m ++
           [{| initial_value := Vec (zeros (dimensions ens));
               name := ens_str ens +:+ ".signal"; readonly := false |};
            {| initial_value := Vec (zeros (dimensions ens));
               name := ens_str ens +:+ ".neuron_in"; readonly := false |};
            {| initial_value := Mat eye;
               name := ens_str ens +:+ ".scaled_encoders"; readonly := true |}])%list;
        warned := (warned m ++ ws)%list |},
     Return tt).
Proof.
  intros Hd Hn Hseed Hgen Hgb. cbn zeta.
  unfold build_ensemble, raw_encoders, scale_encoders.
  rewrite Hd, Hn. forward. rewrite Hgen. run_forward.
  rewrite Hgb. run_forward.
  unfold set_params. cbn [seeds sig operators params signals warned].
  rewrite !length_app. cbn [length].
  rewrite <- !app_assoc. cbn [app].
  replace (length (signals m) + 1 + 1) with (length (signals m) + 2) by lia.
  reflexivity.
Qed.

(** X14: when no parameter of the ensemble is a distribution, the seed
    plays no part: two completed builds store the same record whatever
    seeds the two build contexts give the ensemble. *)
Theorem build_literal_seed_independent ens m1 m2 m1' m2' :
  literal_spec ens = true ->
  build ens m1 = (m1', Return tt) ->
  build ens m2 = (m2', Return tt) ->
  exists b,
    params m1' !! ens_key ens = Some b /\ params m2' !! ens_key ens = Some b.
Proof.
  intros Hlit H1 H2.
  destruct (build_ensemble_Return _ _ ens m1 m1' H1)
    as (seed & ws & pts & rng1 & raw & rng2 & g & bi & mr & ic & rng3 & se
        & _ & Hg & Hraw & Hgb & Hse & Hrec).
  destruct (build_ensemble_Return _ _ ens m2 m2' H2)
    as (seed' & ws' & pts' & rng1' & raw' & rng2' & g' & bi' & mr' & ic' & rng3' & se'
        & _ & Hg' & Hraw' & Hgb' & Hse' & Hrec').
  unfold literal_spec in Hlit.
  unfold gen_eval_points in Hg, Hg'. unfold raw_encoders in Hraw, Hraw'.
  unfold get_gain_bias, sample in Hgb, Hgb'.
  destruct (eval_points ens) as [|a]; [done|].
  destruct (encoders ens) as [|enc]; [done|].
  destruct (max_rates ens) as [|mrs]; [by rewrite !andb_false_r in Hlit|].
  destruct (intercepts ens) as [|ics]; [by rewrite !andb_false_r in Hlit|].
  assert (pts' = pts) as -> by (repeat case_match; congruence).
  assert (raw' = raw) as -> by (repeat case_match; congruence).
  assert (g' = g /\ bi' = bi /\ mr' = mr /\ ic' = ic) as (-> & -> & -> & ->).
  { destruct (gain ens) as [[|gl]|], (bias ens) as [[|bl]|];
      cbn in Hlit; try done;
      try destruct (gain_bias (neuron_type ens) mrs ics);
      simplify_eq; done. }
  rewrite Hse in Hse'. injection Hse' as <-.
  eexists. split; eassumption.
Qed.

(** ** [build_ensemble]: gains that do not fit the encoders *)

Lemma mul_column_mismatch (a : list (list F)) (c : list F) :
  length a <> length c -> length c <> 1 -> length a <> 1 ->
  mul_column a c = Raise ValueError.
Proof.
  intros Hne Hc Ha. unfold mul_column.
  destruct (decide (length a = length c)); [done|].
  destruct c as [|s [|]], a as [|row [|]]; cbn in *; done.
Qed.

Lemma mul_column_single (a : list (list F)) (s : F) :
  mul_column a [s] = Return (map (map (fun x => fmul x s)) a).
Proof.
  unfold mul_column.
  destruct (decide (length a = length [s])) as [Hl|]; [|reflexivity].
  destruct a as [|row [|]]; try discriminate Hl. reflexivity.
Qed.

(** X15: in standard mode a gain that has neither one entry per encoder
    row nor a single entry (with more than one encoder row) is only found
    out when the encoders are scaled: the build ends in an exception,
    which is the [ValueError] of the product unless the neuron builder,
    called before that, raised it itself. *)
Theorem build_gain_length_mismatch ens m seed ws pts rng1 raw rng2 g b mr ic rng3 :
  is_Direct (neuron_type ens) = false ->
  seeds m !! ens_key ens = Some seed ->
  gen ens (eval_points ens) (mkRandomState seed) true = (ws, Return (pts, rng1)) ->
  raw_encoders ens rng1 = (raw, rng2) ->
  get_gain_bias ens rng2 = Return (g, b, mr, ic, rng3) ->
  length g <> length raw -> length g <> 1 -> length raw <> 1 ->
  exists m' e,
    build ens m = (m', Raise e) /\
    (e = ValueError \/
     exists pre post,
       build_neurons (neuron_type ens) (neurons_key ens) pre = (post, Raise e)).
Proof.
  intros Hd Hseed Hgen Hraw Hgb Hl1 Hl2 Hl3.
  assert (Hse : scale_encoders ens (normalize_rows raw) g = Raise ValueError).
  { unfold scale_encoders. rewrite Hd. apply mul_column_mismatch;
      unfold normalize_rows; rewrite ?length_map; congruence. }
  unfold build_ensemble. rewrite Hd. forward. rewrite Hgen. run_forward.
  rewrite Hraw, Hgb. run_forward.
  match goal with
  | |- context [bind (build_neurons ?nt ?k) _ ?M] =>
      destruct (build_neurons nt k M) as [post [[]|e]] eqn:Hb
  end.
  - erewrite bind_step by exact Hb. cbv beta. rewrite Hse. forward.
    eexists _, _. split; [reflexivity|]. by left.
  - erewrite bind_raise by exact Hb.
    eexists _, _. split; [reflexivity|]. right. eauto.
Qed.

(** X16: in standard mode a gain with a single entry is not rejected:
    numpy stretches it, and every row of the stored scaled encoders is
    the encoder row times that one [gain / radius]. *)
Theorem build_single_gain_broadcast ens m m' b g :
  is_Direct (neuron_type ens) = false ->
  build ens m = (m', Return tt) ->
  params m' !! ens_key ens = Some b ->
  built_gain b = [g] ->
  built_scaled_encoders b =
    map (map (fun x => fmul x (fdiv g (radius ens)))) (built_encoders b).
Proof.
  intros Hd H Hb Hg.
  destruct (build_ensemble_Return _ _ ens m m' H)
    as (seed & ws & pts & rng1 & raw & rng2 & g0 & bi & mr & ic & rng3 & se
        & _ & _ & _ & _ & Hse & Hrec).
  rewrite Hrec in Hb. injection Hb as <-. cbn in Hg |- *. subst g0.
  unfold scale_encoders in Hse. rewrite Hd in Hse. cbn [map] in Hse.
  rewrite mul_column_single in Hse. by injection Hse as <-.
Qed.

(** ** [build_ensemble] followed by [get_activities] *)

(** X18: after a completed build, [get_activities] finds the record of
    the ensemble: it never raises [KeyError], and what it passes to the
    neuron model is computed from the stored unit-length encoders
    divided by the radius, not from the scaled encoders, with the stored
    gain and bias. *)
Theorem get_activities_after_build ens m m' (points : list (list F)) :
  build ens m = (m', Return tt) ->
  exists b,
    params m' !! ens_key ens = Some b /\
    get_activities rates m' ens points <> Raise KeyError /\
    get_activities rates m' ens points =
      match dot_transposed points (built_encoders b) (radius ens) with
      | Return x => Return (rates (neuron_type ens) x (built_gain b) (built_bias b))
      | Raise e => Raise e
      end.
Proof.
  intros H.
  destruct (build_ensemble_Return _ _ ens m m' H)
    as (seed & ws & pts & rng1 & raw & rng2 & g & bi & mr & ic & rng3 & se
        & _ & _ & _ & _ & _ & Hrec).
  eexists. split; [exact Hrec|]. unfold get_activities. rewrite Hrec.
  split; [|reflexivity].
  unfold dot_transposed. destruct (forallb _ points); discriminate.
Qed.

End FurtherProperties.

(** * Exact arithmetic: activities at scaled points *)

Section RealActivities.

Context {RandomState : Type}.
Variable rates : NeuronType (F:=R) -> list (list R) -> list R -> list R -> list (list R).

Open Scope R_scope.

Lemma forallb_pointwise {A} (f g : A -> bool) (l : list A) :
  (forall x, f x = g x) -> forallb f l = forallb g l.
Proof. intros Hfg. induction l as [|x l IH]; cbn; [reflexivity|]. by rewrite Hfg, IH. Qed.

Lemma forallb_of_map {A B} (f : B -> bool) (g : A -> B) (l : list A) :
  forallb f (map g l) = forallb (fun x => f (g x)) l.
Proof. induction l as [|x l IH]; cbn; [reflexivity|]. by rewrite IH. Qed.

Lemma products_scaled (r : R) (p e : list R) :
  r <> 0 ->
  zip_with Rmult (map (fun x => x * r) p) (map (fun y => y / r) e) =
  zip_with Rmult p (map (fun y => y / 1) e).
Proof.
  intros Hr. revert e. induction p as [|x p IH]; intros [|y e]; cbn;
    try reflexivity.
  rewrite IH. f_equal. field. exact Hr.
Qed.

Lemma dot_transposed_scaled (r : R) (a b : list (list R)) :
  r <> 0 ->
  dot_transposed (map (map (fun x => x * r)) a) b r = dot_transposed a b 1.
Proof.
  intros Hr. unfold dot_transposed.
  rewrite forallb_of_map.
  rewrite (forallb_pointwise _
             (fun p => forallb (fun e => Nat.eqb (length p) (length e)) b))
    by (intros p; apply forallb_pointwise; intros e; by rewrite length_map).
  destruct (forallb _ a); [|reflexivity].
  f_equal. rewrite map_map. apply map_ext. intros p. apply map_ext. intros e.
  unfold dot_row. cbn [fmul fdiv fadd f0 R_Scalar].
  by rewrite products_scaled.
Qed.


End RealActivities.

(** * Concrete runs *)

Import Examples.

Lemma add_op_extends {F} op (m : Model (F:=F)) : extends m (add_op op m).1.
Proof. repeat split; auto. Qed.

Lemma rate_neurons_extends {F} k (m : Model (F:=F)) :
  extends m (build_neurons rate_neurons k m).1.
Proof.
  cbn. unfold bind, get_sig.
  destruct (sig m !! (k, "in")); [|repeat split; auto].
  destruct (sig m !! (k, "out")); repeat split; auto.
Qed.

Lemma examples_extend {F RandomState}
    (ens : Ensemble (F:=F) (RandomState:=RandomState)) :
  neuron_type ens = rate_neurons \/ neuron_type ens = direct_neurons ->
  noise ens = None \/ noise ens = Some white_noise ->
  sub_builders_extend ens.
Proof.
  intros Hnt Hnoise. split.
  - intros k m. destruct Hnt as [-> | ->].
    + apply rate_neurons_extends.
    + repeat split; auto.
  - intros p s inc m Hp. destruct Hnoise as [Hn | Hn]; rewrite Hn in Hp.
    + discriminate.
    + injection Hp as <-. apply add_op_extends.
Qed.

(** Binary64 runs of [get_gain_bias]. *)
Lemma get_gain_bias_both_run :
  get_gain_bias base_ens 7%Z =
    Return ([1; 2; 3]%float, [0; 0; 0]%float, None, None, 7%Z).
Proof.
  exact (get_gain_bias_both base_ens _ _ 7%Z eq_refl eq_refl).
Defined.

Lemma get_gain_bias_exactly_one_run :
  exactly_one_of_gain_bias gain_only = true /\
  get_gain_bias gain_only 7%Z =
    Raise (NotImplementedError
             "gain or bias set for <Ensemble A>, but not both. Solving for one given the other is not implemented yet.").
Proof.
  split; [reflexivity|].
  exact (get_gain_bias_exactly_one gain_only 7%Z eq_refl).
Defined.

(** C3 (as stated, refuted): an ensemble with only [gain] set and one
    with only [bias] set raise the very same error, so nothing computed
    from the message can tell which of the two was set. *)
Lemma message_does_not_tell_gain_from_bias :
  exactly_one_of_gain_bias gain_only = true /\
  exactly_one_of_gain_bias bias_only = true /\
  is_Some (gain gain_only) /\ bias gain_only = None /\
  gain bias_only = None /\ is_Some (bias bias_only) /\
  get_gain_bias gain_only 7%Z = get_gain_bias bias_only 7%Z /\
  ~ exists which : string -> bool,
      forall (ens : Ensemble (F:=float) (RandomState:=Z)) rng msg,
        get_gain_bias ens rng = Raise (NotImplementedError msg) ->
        which msg = bool_decide (is_Some (gain ens)).
Proof.
  repeat split; try reflexivity; try (eexists; reflexivity).
  intros [which Hw].
  assert (Hg : which (gain_bias_message gain_only) = true)
    by exact (Hw gain_only 7%Z _ eq_refl).
  assert (Hb : which (gain_bias_message gain_only) = false)
    by exact (Hw bias_only 7%Z _ eq_refl).
  congruence.
Qed.

(** Binary64 runs of the failing builds. *)
Lemma build_aborts_half_wired_run :
  build_ensemble mk_rng default_points gain_only empty_model =
    ({| seeds := {[ EnsKey 0 := 7%Z ]};
        sig := {[ (EnsKey 0, "in") := 0 ]};
        operators := [Reset 0];
        params := ∅;
        signals := [{| initial_value := Vec [0; 0]%float;
                       name := "<Ensemble A>.signal";
                       readonly := false |}];
        warned := [] |},
     Raise (NotImplementedError (gain_bias_message gain_only))).
Proof.
  exact (proj1 (build_aborts_half_wired mk_rng default_points gain_only
                  empty_model 7%Z _ _ _ eq_refl eq_refl eq_refl)).
Defined.

Lemma build_exactly_one_no_encoder_signal_run :
  exists m' e,
    build_ensemble mk_rng default_points gain_only empty_model = (m', Raise e) /\
    sig m' !! (EnsKey 0, "encoders") = None /\
    e = NotImplementedError (gain_bias_message gain_only).
Proof.
  destruct (build_exactly_one_no_encoder_signal mk_rng default_points
              gain_only empty_model eq_refl) as (m' & e & H & Hs & _ & He).
  exists m', e. split; [exact H|]. split; [exact Hs|].
  exact (He 7%Z _ _ _ eq_refl eq_refl).
Defined.

Lemma build_bad_eval_points_ndim_run :
  ndim cube = 3 /\
  exists m' e,
    build_ensemble mk_rng default_points cube_ens empty_model = (m', Raise e) /\
    params m' = ∅ /\ shape_error e.
Proof.
  split; [reflexivity|].
  destruct (build_bad_eval_points_ndim mk_rng default_points cube_ens cube
              empty_model eq_refl ltac:(discriminate))
    as (_ & m' & e & H & Hp & _ & _ & _ & He).
  exists m', e. split; [exact H|]. split; [exact Hp|].
  apply He. eexists. reflexivity.
Defined.

(** Binary64 runs of the completed builds. *)
Lemma build_ensemble_deterministic_run :
  exists b,
    params (build_ensemble mk_rng default_points base_ens empty_model).1
      !! EnsKey 0 = Some b /\
    params (build_ensemble mk_rng default_points base_ens busy_model).1
      !! EnsKey 0 = Some b /\
    params (build_ensemble mk_rng default_points other_ens
              (build_ensemble mk_rng default_points base_ens empty_model).1).1
      !! EnsKey 0 = Some b.
Proof.
  destruct (build_ensemble_deterministic mk_rng default_points base_ens
              empty_model busy_model
              (build_ensemble mk_rng default_points base_ens empty_model).1
              (build_ensemble mk_rng default_points base_ens busy_model).1
              eq_refl
              ltac:(vm_compute; reflexivity) ltac:(vm_compute; reflexivity))
    as (b & H1 & H2 & H3).
  exists b. split; [exact H1|]. split; [exact H2|].
  apply (H3 other_ens _
           (build_ensemble mk_rng default_points other_ens
              (build_ensemble mk_rng default_points base_ens empty_model).1).2).
  - discriminate.
  - apply examples_extend; [left | left]; reflexivity.
  - apply surjective_pairing.
Defined.

Lemma build_direct_run :
  exists r,
    let m' := (build_ensemble mk_rng default_points direct_ens empty_model).1 in
    sig m' !! (NeuronsKey 0, "in") = Some r /\
    sig m' !! (NeuronsKey 0, "out") = Some r /\
    (built_encoders <$> params m' !! EnsKey 0) = Some [[1; 0]; [0; 1]]%float /\
    (built_scaled_encoders <$> params m' !! EnsKey 0) = Some [[1; 0]; [0; 1]]%float.
Proof.
  destruct (build_direct mk_rng default_points direct_ens empty_model
              (build_ensemble mk_rng default_points direct_ens empty_model).1
              float_UnitLaws eq_refl
              ltac:(apply examples_extend; [right | right]; reflexivity)
              ltac:(vm_compute; reflexivity))
    as (r & b & Hi & Ho & _ & Hb & He & Hs).
  change (ens_key direct_ens) with (EnsKey 0) in Hb.
  change (neurons_key direct_ens) with (NeuronsKey 0) in Hi, Ho.
  exists r. cbn zeta. rewrite Hb. cbn [fmap option_fmap option_map]. rewrite He, Hs.
  repeat split; assumption || reflexivity.
Defined.


Lemma eval_points_row_count_mismatch_run :
  let m' := (build_ensemble mk_rng default_points fifty_ens empty_model).1 in
  (build_ensemble mk_rng default_points fifty_ens empty_model).2 = Return tt /\
  mismatch_warning ∈ warned m' /\
  exists b, params m' !! EnsKey 0 = Some b /\
            shape (built_eval_points b) = [50; 2] /\
            data (built_eval_points b) = repeat 0.75%float 100.
Proof.
  destruct (eval_points_row_count_mismatch mk_rng default_points fifty_ens
              fifty_rows 40 50 2 eq_refl eq_refl eq_refl ltac:(discriminate))
    as (_ & Hshape & Hdata & Hbuild).
  destruct (Hbuild empty_model
              (build_ensemble mk_rng default_points fifty_ens empty_model).1
              ltac:(apply examples_extend; [left | right]; reflexivity)
              ltac:(vm_compute; reflexivity))
    as (Hw & b & Hb & Hpts).
  cbn zeta. split; [vm_compute; reflexivity|]. split; [exact Hw|].
  exists b. split; [exact Hb|]. rewrite Hpts. split; [exact Hshape|].
  rewrite Hdata. vm_compute. reflexivity.
Defined.



(** ** Runs for the further properties *)

Lemma examples_keep_params {F RandomState}
    (ens : Ensemble (F:=F) (RandomState:=RandomState)) :
  neuron_type ens = rate_neurons \/ neuron_type ens = direct_neurons ->
  noise ens = None \/ noise ens = Some white_noise ->
  sub_builders_keep_params ens.
Proof.
  intros Hnt Hnoise. split.
  - intros k m. destruct Hnt as [-> | ->]; [|reflexivity].
    cbn. unfold bind, get_sig.
    destruct (sig m !! (k, "in")); [|reflexivity].
    destruct (sig m !! (k, "out")); reflexivity.
  - intros p s inc m Hp. destruct Hnoise as [Hn | Hn]; rewrite Hn in Hp.
    + discriminate.
    + by injection Hp as <-.
Qed.



Lemma build_stores_only_on_return_run :
  params (build_ensemble mk_rng default_points gain_only empty_model).1 = ∅ /\
  exists b,
    params (build_ensemble mk_rng default_points base_ens empty_model).1 =
      {[ EnsKey 0 := b ]}.
Proof.
  split.
  - exact (build_stores_only_on_return mk_rng default_points gain_only
             empty_model _ _
             (examples_keep_params gain_only (or_introl eq_refl)
                (or_intror eq_refl))
             (surjective_pairing _)).
  - exact (build_stores_only_on_return mk_rng default_points base_ens
             empty_model _ _
             (examples_keep_params base_ens (or_introl eq_refl)
                (or_intror eq_refl))
             (surjective_pairing _)).
Defined.

Lemma build_missing_seed_run :
  build_ensemble mk_rng default_points stranger_ens empty_model =
    (empty_model, Raise KeyError).
Proof.
  exact (build_missing_seed mk_rng default_points stranger_ens empty_model eq_refl).
Defined.

Lemma build_warns_then_asserts_run :
  build_ensemble mk_rng default_points flat_ens empty_model =
    ({| seeds := {[ EnsKey 0 := 7%Z ]}; sig := ∅; operators := []; params := ∅;
        signals := []; warned := [mismatch_warning] |},
     Raise AssertionError).
Proof.
  exact (build_warns_then_asserts mk_rng default_points flat_ens _ 50 [] 40
           empty_model 7%Z eq_refl eq_refl ltac:(discriminate) eq_refl
           ltac:(discriminate) eq_refl).
Defined.

Lemma build_record_run :
  exists b,
    params (build_ensemble mk_rng default_points base_ens empty_model).1
      !! EnsKey 0 = Some b /\
    built_encoders b = normalize_rows [[3; 4]; [0; 2]; [1; 0]]%float /\
    built_max_rates b = None.
Proof.
  destruct (build_record mk_rng default_points base_ens empty_model
              (build_ensemble mk_rng default_points base_ens empty_model).1
              ltac:(vm_compute; reflexivity))
    as (seed & ws & pts & rng1 & raw & rng2 & g & bi & mr & ic & rng3 & se
        & _ & _ & Hraw & Hgb & _ & Hrec).
  injection Hraw as <- _. injection Hgb as _ _ <- _ _.
  eexists. split; [exact Hrec|]. split; reflexivity.
Defined.

Lemma build_last_operator_run :
  exists (ops : list Operator) a x y,
    operators (build_ensemble mk_rng default_points base_ens empty_model).1 =
      (ops ++ [DotInc a x y "<Ensemble A> encoding"])%list.
Proof.
  destruct (build_last_operator mk_rng default_points base_ens empty_model
              (build_ensemble mk_rng default_points base_ens empty_model).1
              ltac:(vm_compute; reflexivity))
    as (ops & a & x & y & Hops & _).
  exists ops, a, x, y. exact Hops.
Defined.

Lemma build_standard_signals_run :
  let m' := (build_ensemble mk_rng default_points base_ens empty_model).1 in
  sig m' !! (NeuronsKey 0, "in") = Some 1 /\
  sig m' !! (NeuronsKey 0, "out") = Some 2 /\
  sig m' !! (EnsKey 0, "out") = Some 2.
Proof.
  destruct (build_standard_signals mk_rng default_points base_ens empty_model
              (build_ensemble mk_rng default_points base_ens empty_model).1
              eq_refl
              (examples_extend base_ens (or_introl eq_refl) (or_intror eq_refl))
              ltac:(vm_compute; reflexivity))
    as (_ & Hi & Ho & He & _).
  cbn zeta. repeat split; assumption.
Defined.

Lemma build_direct_exact_run :
  operators (build_ensemble mk_rng default_points quiet_direct_ens empty_model).1 =
    [Reset 0; Reset 1; DotInc 2 0 1 "<Ensemble A> encoding"] /\
  length (signals (build_ensemble mk_rng default_points quiet_direct_ens
                     empty_model).1) = 3.
Proof.
  rewrite (build_direct_exact mk_rng default_points quiet_direct_ens empty_model
             7%Z _ _ _ _ _ _ _ _ eq_refl eq_refl eq_refl eq_refl eq_refl).
  split; reflexivity.
Defined.

Lemma build_literal_seed_independent_run :
  exists b,
    params (build_ensemble mk_rng default_points literal_ens empty_model).1
      !! EnsKey 0 = Some b /\
    params (build_ensemble mk_rng default_points literal_ens reseeded_model).1
      !! EnsKey 0 = Some b.
Proof.
  exact (build_literal_seed_independent mk_rng default_points literal_ens
           empty_model reseeded_model _ _ eq_refl
           ltac:(vm_compute; reflexivity) ltac:(vm_compute; reflexivity)).
Defined.

Lemma build_gain_length_mismatch_run :
  exists m',
    build_ensemble mk_rng default_points short_gain_ens empty_model =
      (m', Raise ValueError).
Proof.
  destruct (build_gain_length_mismatch mk_rng default_points short_gain_ens
              empty_model 7%Z _ _ _ _ _ _ _ _ _ _
              eq_refl eq_refl eq_refl eq_refl eq_refl
              ltac:(discriminate) ltac:(discriminate) ltac:(discriminate))
    as (m' & e & H & _).
  exists m'. rewrite H. vm_compute in H. injection H as _ <-. reflexivity.
Defined.

Lemma build_single_gain_broadcast_run :
  exists b,
    params (build_ensemble mk_rng default_points single_gain_ens empty_model).1
      !! EnsKey 0 = Some b /\
    built_scaled_encoders b =
      map (map (fun x => (x * (3 / 1.5))%float)) (built_encoders b).
Proof.
  assert (Hb : exists b,
             params (build_ensemble mk_rng default_points single_gain_ens
                       empty_model).1 !! ens_key single_gain_ens = Some b /\
             built_gain b = [3%float])
    by (eexists; split; vm_compute; reflexivity).
  destruct Hb as (b & Hb & Hg). exists b. split; [exact Hb|].
  exact (build_single_gain_broadcast mk_rng default_points single_gain_ens
           empty_model _ b 3%float eq_refl
           ltac:(vm_compute; reflexivity) Hb Hg).
Defined.

Lemma get_activities_after_build_run :
  get_activities linear_rates
    (build_ensemble mk_rng default_points base_ens empty_model).1 base_ens
    [[1.5; 0]; [0; 1.5]]%float
  <> Raise KeyError.
Proof.
  destruct (get_activities_after_build mk_rng default_points linear_rates
              base_ens empty_model
              (build_ensemble mk_rng default_points base_ens empty_model).1
              [[1.5; 0]; [0; 1.5]]%float ltac:(vm_compute; reflexivity))
    as (b & _ & H & _).
  exact H.
Defined.

